(** * The attack simulator of [scripts/simulate-51-attack.py]

    A shallow embedding of the script: the [SelfishMiningAttack] class
    and the block producer [MiningSimulator.mine_block] it drives, the
    three scenarios that follow it ([DoubleSpendAttack],
    [LongRangeAttack], [TimestampManipulationAttack]) and [main], which
    builds the configuration and runs the scenarios selected; then the
    properties of the fork-choice state machine and of the scenarios.

    Python values are modelled as follows: [int] is [Z]; [float] is an
    IEEE 754 binary64 value ([spec_float] at precision 53, maximal
    exponent 1024); [str] is [string]; [list] is [list]; an instance of a
    dataclass or of a class is a record, and an assignment to an attribute
    is a record update.  A call that can raise returns a [result].  The
    draws of the [random] module and the readings of [time.time] are inputs
    of the model, one record of each per round of the loop. *)

From Stdlib Require Import ZArith Bool Ascii String List Lia SpecFloat.
From Stdlib Require Import DecimalString.
Import ListNotations.

Local Open Scope string_scope.
Local Open Scope list_scope.
Local Open Scope Z_scope.

(** ** [hashlib.sha256(...).hexdigest()]

    FIPS 180-4 on bytes, with 32-bit words held in [Z] and reduced by hand
    after every addition and left shift. *)
Module SHA256.

Definition mask32 : Z := 0xffffffff.
Definition w32 (x : Z) : Z := Z.land x mask32.
Definition add32 (a b : Z) : Z := w32 (a + b).
Definition rotr (n x : Z) : Z :=
  Z.lor (Z.shiftr x n) (w32 (Z.shiftl x (32 - n))).
Definition not32 (x : Z) : Z := Z.lxor x mask32.

Definition Ch (x y z : Z) : Z := Z.lxor (Z.land x y) (Z.land (not32 x) z).
Definition Maj (x y z : Z) : Z :=
  Z.lxor (Z.lxor (Z.land x y) (Z.land x z)) (Z.land y z).
Definition Sigma0 (x : Z) : Z := Z.lxor (Z.lxor (rotr 2 x) (rotr 13 x)) (rotr 22 x).
Definition Sigma1 (x : Z) : Z := Z.lxor (Z.lxor (rotr 6 x) (rotr 11 x)) (rotr 25 x).
Definition sigma0 (x : Z) : Z := Z.lxor (Z.lxor (rotr 7 x) (rotr 18 x)) (Z.shiftr x 3).
Definition sigma1 (x : Z) : Z := Z.lxor (Z.lxor (rotr 17 x) (rotr 19 x)) (Z.shiftr x 10).

(** The constants, as the standard derives them: the first 32 bits of
    the fractional parts of the cube roots of the first 64 primes, and of
    the square roots of the first 8. *)
Definition is_prime (n : Z) : bool :=
  forallb (fun d => negb (n mod d =? 0)) (map Z.of_nat (seq 2 (Z.to_nat n - 2))).

Definition primes : list Z := filter is_prime (map Z.of_nat (seq 2 310)).

(** The largest [r] below [2 ^ bits] with [r ^ k <= n], bit by bit. *)
Fixpoint root_bits (k : Z) (bits : nat) (n r : Z) : Z :=
  match bits with
  | O => r
  | S b =>
      let r' := r + 2 ^ Z.of_nat b in
      if r' ^ k <=? n then root_bits k b n r' else root_bits k b n r
  end.

Definition frac_root (k p : Z) : Z := w32 (root_bits k 40 (p * 2 ^ (32 * k)) 0).

Definition K : list Z := Eval vm_compute in map (frac_root 3) primes.

Definition H0 : list Z := Eval vm_compute in map (frac_root 2) (firstn 8 primes).

(** Big-endian bytes of [x], [n] of them. *)
Fixpoint be_bytes (n : nat) (x : Z) : list Z :=
  match n with
  | O => []
  | S n' => Z.land (Z.shiftr x (8 * Z.of_nat n')) 0xff :: be_bytes n' x
  end.

Definition pad (msg : list Z) : list Z :=
  let len := Z.of_nat (length msg) in
  let zeros := Z.to_nat ((55 - len) mod 64) in
  msg ++ [0x80] ++ repeat 0 zeros ++ be_bytes 8 (8 * len).

Fixpoint be_words (fuel : nat) (bs : list Z) : list Z :=
  match fuel, bs with
  | S fuel', b0 :: b1 :: b2 :: b3 :: rest =>
      (Z.shiftl b0 24 + Z.shiftl b1 16 + Z.shiftl b2 8 + b3) :: be_words fuel' rest
  | _, _ => []
  end.

Fixpoint chunks (fuel : nat) (ws : list Z) : list (list Z) :=
  match fuel, ws with
  | S fuel', _ :: _ => firstn 16 ws :: chunks fuel' (skipn 16 ws)
  | _, _ => []
  end.

(** One round: [win] holds the sixteen schedule words [W t .. W (t+15)];
    the working variables are [a .. h]. *)
Definition round (st : list Z * list Z) (k : Z) : list Z * list Z :=
  match st with
  | (a :: b :: c :: d :: e :: f :: g :: h :: nil, win) =>
      let w := nth 0 win 0 in
      let t1 := add32 (add32 (add32 (add32 h (Sigma1 e)) (Ch e f g)) k) w in
      let t2 := add32 (Sigma0 a) (Maj a b c) in
      let w16 := add32 (add32 (add32 (sigma1 (nth 14 win 0)) (nth 9 win 0))
                              (sigma0 (nth 1 win 0))) w in
      ([add32 t1 t2; a; b; c; add32 d t1; e; f; g], tl win ++ [w16])
  | _ => st
  end.

Definition compress (h : list Z) (block : list Z) : list Z :=
  let '(v, _) := fold_left round K (h, block) in
  map (fun p => add32 (fst p) (snd p)) (combine h v).

Definition digest (msg : list Z) : list Z :=
  let bs := pad msg in
  let ws := be_words (length bs) bs in
  fold_left compress (chunks (length ws) ws) H0.

Definition hex_digit (x : Z) : ascii :=
  nth (Z.to_nat x)
      (list_ascii_of_string "0123456789abcdef") "0"%char.

Fixpoint hex_nibbles (n : nat) (x : Z) : string :=
  match n with
  | O => EmptyString
  | S n' => String (hex_digit (Z.land (Z.shiftr x (4 * Z.of_nat n')) 0xf))
                   (hex_nibbles n' x)
  end.

Definition bytes_of_string (s : string) : list Z :=
  map (fun c => Z.of_N (N_of_ascii c)) (list_ascii_of_string s).

Definition hexdigest (s : string) : string :=
  fold_right (fun w acc => String.append (hex_nibbles 8 w) acc) EmptyString
             (digest (bytes_of_string s)).

End SHA256.

(** ** Exceptions

    An exception is named by its class.  [Raise e] stands for an uncaught
    [e]: nothing in the script catches one. *)
Definition exn := string.

Inductive result (A : Type) : Type :=
| Ok (a : A)
| Raise (e : exn).
Arguments Ok {A} a.
Arguments Raise {A} e.

Definition bind {A B : Type} (m : result A) (k : A -> result B) : result B :=
  match m with
  | Ok a => k a
  | Raise e => Raise e
  end.

Notation "x <- m ;; k" := (bind m (fun x => k))
  (at level 61, m at next level, right associativity).

Definition ZeroDivisionError : exn := "ZeroDivisionError".
Definition ValueError : exn := "ValueError".
Definition IndexError : exn := "IndexError".
Definition OverflowError : exn := "OverflowError".

(** ** Python values *)

(** [float]: binary64. *)
Definition float := spec_float.
Definition prec : Z := 53.
Definition emax : Z := 1024.

Definition float_lit (m e : Z) : float := binary_normalize prec emax m e false.
Definition fmul : float -> float -> float := SFmul prec emax.
Definition fsub : float -> float -> float := SFsub prec emax.
Definition fdiv : float -> float -> float := SFdiv prec emax.
Definition flt : float -> float -> bool := SFltb.
Definition fle : float -> float -> bool := SFleb.

Definition is_zero (x : float) : bool :=
  match x with S754_zero _ => true | _ => false end.
Definition is_nan (x : float) : bool :=
  match x with S754_nan => true | _ => false end.

Definition f0 : float := S754_zero false.
Definition f1 : float := float_lit 1 0.
Definition f3 : float := float_lit 3 0.
Definition f60 : float := float_lit 60 0.
(** [0.1] is [0x1.999999999999ap-4]. *)
Definition f0_1 : float := float_lit 0x1999999999999a (-56).

(** [float(n)] for an [int]: rounded to nearest even, [OverflowError] when
    the result is not finite. *)
Definition float_of_int (n : Z) : result float :=
  match binary_normalize prec emax n 0 false with
  | S754_infinity _ => Raise OverflowError
  | x => Ok x
  end.

(** [x / y] on floats. *)
Definition truediv (x y : float) : result float :=
  if is_zero y then Raise ZeroDivisionError else Ok (fdiv x y).

(** [min(a, b)]: [b] when [b < a], else [a]. *)
Definition fmin (a b : float) : float := if flt b a then b else a.

(** [str(n)] for an [int]. *)
Definition str (n : Z) : string := NilZero.string_of_int (Z.to_int n).

(** [len(l)]. *)
Definition len {A : Type} (l : list A) : Z := Z.of_nat (length l).

(** [l[i]] for [0 <= i]. *)
Definition index {A : Type} (l : list A) (i : nat) : result A :=
  match nth_error l i with
  | Some x => Ok x
  | None => Raise IndexError
  end.

(** [l[-1]]. *)
Definition last_item {A : Type} (l : list A) : result A :=
  match rev l with
  | x :: _ => Ok x
  | [] => Raise IndexError
  end.

(** [range(lo, hi)]. *)
Definition range (lo hi : Z) : list Z :=
  map (fun i => lo + Z.of_nat i) (seq 0 (Z.to_nat (hi - lo))).

(** ** The sources of nondeterminism

    What one round takes from the [random] module, in the order of the
    calls, and what it reads from the clock. *)
Record Draw := {
  random_value : float;  (* random.random() in run_simulation *)
  choice : nat;          (* the position random.choice takes in honest_miners *)
  expo : float;          (* -log(1.0 - random()) inside random.expovariate *)
  randint : Z            (* random.randint(0, 2**32) *)
}.

Record Clock := {
  time_hash : Z;   (* int(time.time()) inside block_data *)
  time_stamp : Z   (* int(time.time()) in the timestamp field *)
}.

(** The ranges the [random] module promises. *)
Definition draw_ok (d : Draw) : Prop :=
  fle f0 (random_value d) = true /\ flt (random_value d) f1 = true /\
  (choice d < 3)%nat /\
  fle f0 (expo d) = true /\
  0 <= randint d <= 2 ^ 32.

(** [random.expovariate(lambd)] is [-log(1.0 - random()) / lambd]. *)
Definition expovariate (lambd : float) (d : Draw) : result float :=
  truediv (expo d) lambd.

(** [time.sleep(secs)], as CPython 3.11 has it on a 64-bit platform.
    NaN is refused with [ValueError].  The length then becomes a number
    of nanoseconds, [secs * 1e9] rounded away from zero to a whole
    number, which must lie between [-2 ^ 63] and [2 ^ 63] as floats, or
    the call raises [OverflowError]; rounding to a whole number moves the
    product neither across zero nor across these bounds, so the tests are
    made on the product.  The number is stored in a signed 64-bit
    integer, where [2 ^ 63] itself wraps to the least integer, and a
    negative integer is refused with [ValueError].  Any other length is
    slept through.  The script asks for 0.1 second at most; what the
    operating system does with a pause of centuries is outside the
    model. *)
Definition feq : float -> float -> bool := SFeqb.
Definition f1e9 : float := float_lit 1000000000 0.
Definition min_ns : float := float_lit (- 2 ^ 63) 0.
Definition max_ns : float := float_lit (2 ^ 63) 0.

Definition sleep (secs : float) : result unit :=
  if is_nan secs then Raise ValueError
  else
    let ns := fmul secs f1e9 in
    if flt ns min_ns || flt max_ns ns then Raise OverflowError
    else if flt ns f0 || feq ns max_ns then Raise ValueError
    else Ok tt.

(** ** Data model *)
Record Block := {
  height : Z;
  hash : string;
  prev_hash : string;
  timestamp : Z;
  difficulty : Z;
  nonce : Z;
  transactions : list string;
  miner : string
}.

Record SimulationConfig := {
  attacker_hashrate : float;
  honest_hashrate : float;
  total_blocks : Z;
  attack_type : string;
  network_delay : float;
  verbose : bool
}.

Record MiningSimulator := {
  hashrate : float;
  miner_id : string
}.

(** [MiningSimulator.mine_block] *)
Definition mine_block (self : MiningSimulator) (height : Z) (prev_hash : string)
    (difficulty : Z) (d : Draw) (c : Clock) : result Block :=
  time_to_mine <- expovariate (fdiv (hashrate self) f60) d ;;
  _ <- sleep (fmin time_to_mine f0_1) ;;
  let nonce := randint d in
  let block_data :=
    String.append (str height)
      (String.append prev_hash
         (String.append (str (time_hash c)) (str nonce))) in
  let block_hash := SHA256.hexdigest block_data in
  Ok {| height := height;
        hash := block_hash;
        prev_hash := prev_hash;
        timestamp := time_stamp c;
        difficulty := difficulty;
        nonce := nonce;
        transactions := [];
        miner := miner_id self |}.

(** ** [class SelfishMiningAttack] *)
Record SelfishMiningAttack := {
  config : SimulationConfig;
  attacker_miner : MiningSimulator;
  honest_miners : list MiningSimulator;
  public_chain : list Block;
  attacker_chain : list Block;
  attacker_blocks_mined : Z;
  honest_blocks_mined : Z;
  attacker_blocks_in_main_chain : Z;
  honest_blocks_in_main_chain : Z;
  reorgs : Z
}.

(** Attribute assignments [self.x = v]. *)
Definition set_public_chain (self : SelfishMiningAttack) (v : list Block) :=
  {| config := config self; attacker_miner := attacker_miner self;
     honest_miners := honest_miners self;
     public_chain := v;
     attacker_chain := attacker_chain self;
     attacker_blocks_mined := attacker_blocks_mined self;
     honest_blocks_mined := honest_blocks_mined self;
     attacker_blocks_in_main_chain := attacker_blocks_in_main_chain self;
     honest_blocks_in_main_chain := honest_blocks_in_main_chain self;
     reorgs := reorgs self |}.

Definition set_attacker_chain (self : SelfishMiningAttack) (v : list Block) :=
  {| config := config self; attacker_miner := attacker_miner self;
     honest_miners := honest_miners self;
     public_chain := public_chain self;
     attacker_chain := v;
     attacker_blocks_mined := attacker_blocks_mined self;
     honest_blocks_mined := honest_blocks_mined self;
     attacker_blocks_in_main_chain := attacker_blocks_in_main_chain self;
     honest_blocks_in_main_chain := honest_blocks_in_main_chain self;
     reorgs := reorgs self |}.

Definition set_attacker_blocks_mined (self : SelfishMiningAttack) (v : Z) :=
  {| config := config self; attacker_miner := attacker_miner self;
     honest_miners := honest_miners self;
     public_chain := public_chain self;
     attacker_chain := attacker_chain self;
     attacker_blocks_mined := v;
     honest_blocks_mined := honest_blocks_mined self;
     attacker_blocks_in_main_chain := attacker_blocks_in_main_chain self;
     honest_blocks_in_main_chain := honest_blocks_in_main_chain self;
     reorgs := reorgs self |}.

Definition set_honest_blocks_mined (self : SelfishMiningAttack) (v : Z) :=
  {| config := config self; attacker_miner := attacker_miner self;
     honest_miners := honest_miners self;
     public_chain := public_chain self;
     attacker_chain := attacker_chain self;
     attacker_blocks_mined := attacker_blocks_mined self;
     honest_blocks_mined := v;
     attacker_blocks_in_main_chain := attacker_blocks_in_main_chain self;
     honest_blocks_in_main_chain := honest_blocks_in_main_chain self;
     reorgs := reorgs self |}.

Definition set_attacker_blocks_in_main_chain (self : SelfishMiningAttack) (v : Z) :=
  {| config := config self; attacker_miner := attacker_miner self;
     honest_miners := honest_miners self;
     public_chain := public_chain self;
     attacker_chain := attacker_chain self;
     attacker_blocks_mined := attacker_blocks_mined self;
     honest_blocks_mined := honest_blocks_mined self;
     attacker_blocks_in_main_chain := v;
     honest_blocks_in_main_chain := honest_blocks_in_main_chain self;
     reorgs := reorgs self |}.

Definition set_honest_blocks_in_main_chain (self : SelfishMiningAttack) (v : Z) :=
  {| config := config self; attacker_miner := attacker_miner self;
     honest_miners := honest_miners self;
     public_chain := public_chain self;
     attacker_chain := attacker_chain self;
     attacker_blocks_mined := attacker_blocks_mined self;
     honest_blocks_mined := honest_blocks_mined self;
     attacker_blocks_in_main_chain := attacker_blocks_in_main_chain self;
     honest_blocks_in_main_chain := v;
     reorgs := reorgs self |}.

Definition set_reorgs (self : SelfishMiningAttack) (v : Z) :=
  {| config := config self; attacker_miner := attacker_miner self;
     honest_miners := honest_miners self;
     public_chain := public_chain self;
     attacker_chain := attacker_chain self;
     attacker_blocks_mined := attacker_blocks_mined self;
     honest_blocks_mined := honest_blocks_mined self;
     attacker_blocks_in_main_chain := attacker_blocks_in_main_chain self;
     honest_blocks_in_main_chain := honest_blocks_in_main_chain self;
     reorgs := v |}.

Definition ATTACKER : string := "ATTACKER".

(** [SelfishMiningAttack.__init__] *)
Definition __init__ (config : SimulationConfig) : SelfishMiningAttack :=
  {| config := config;
     attacker_miner :=
       {| hashrate := attacker_hashrate config; miner_id := ATTACKER |};
     honest_miners :=
       map (fun i =>
              {| hashrate := fdiv (honest_hashrate config) f3;
                 miner_id := String.append "HONEST_" (str i) |})
           (range 0 3);
     public_chain := [];
     attacker_chain := [];
     attacker_blocks_mined := 0;
     honest_blocks_mined := 0;
     attacker_blocks_in_main_chain := 0;
     honest_blocks_in_main_chain := 0;
     reorgs := 0 |}.

Definition genesis : Block :=
  {| height := 0;
     hash := "genesis_hash";
     prev_hash := "0000000000000000000000000000000000000000000000000000000000000000";
     timestamp := 1763452800;
     difficulty := 16;
     nonce := 0xDEADBEEF;
     transactions := [];
     miner := "GENESIS" |}.

(** The two attributes get two lists, each holding the one genesis block;
    blocks are never written after their creation, so nothing is shared
    that an update could reach. *)
Definition initialize_genesis (self : SelfishMiningAttack) : SelfishMiningAttack :=
  set_attacker_chain (set_public_chain self [genesis]) [genesis].

(** The [for] loop of [_find_fork_point] over the indices still to visit;
    [stop] is the value returned after the loop. *)
Fixpoint _find_fork_point_loop (self : SelfishMiningAttack) (todo : list Z)
    (stop : Z) : result Z :=
  match todo with
  | [] => Ok stop
  | i :: rest =>
      p <- index (public_chain self) (Z.to_nat i) ;;
      a <- index (attacker_chain self) (Z.to_nat i) ;;
      if negb (String.eqb (hash p) (hash a)) then Ok i
      else _find_fork_point_loop self rest stop
  end.

Definition _find_fork_point (self : SelfishMiningAttack) : result Z :=
  let n := Z.min (len (public_chain self)) (len (attacker_chain self)) in
  _find_fork_point_loop self (range 0 n) n.

(** [len([b for b in chain if b.miner == "ATTACKER"])] *)
Definition attacker_blocks (chain : list Block) : Z :=
  len (filter (fun b => String.eqb (miner b) ATTACKER) chain).

Definition _attacker_releases_chain (self : SelfishMiningAttack)
  : result SelfishMiningAttack :=
  if len (attacker_chain self) >? len (public_chain self) then
    (* blocks_replaced is computed for the message only *)
    _ <- _find_fork_point self ;;
    let self := set_reorgs self (reorgs self + 1) in
    fork_point <- _find_fork_point self ;;
    let attacker_blocks_won := len (attacker_chain self) - fork_point in
    let self := set_attacker_blocks_in_main_chain self
                  (attacker_blocks_in_main_chain self + attacker_blocks_won) in
    Ok (set_public_chain self (attacker_chain self))
  else
    let honest_blocks_won :=
      len (public_chain self) - attacker_blocks (public_chain self) in
    let self := set_honest_blocks_in_main_chain self honest_blocks_won in
    Ok (set_attacker_chain self (public_chain self)).

Definition _attacker_mines_block (self : SelfishMiningAttack) (d : Draw)
    (c : Clock) : result SelfishMiningAttack :=
  tip <- last_item (attacker_chain self) ;;
  new_block <- mine_block (attacker_miner self) (height tip + 1) (hash tip) 16 d c ;;
  let self := set_attacker_chain self (attacker_chain self ++ [new_block]) in
  Ok (set_attacker_blocks_mined self (attacker_blocks_mined self + 1)).

Definition _honest_miner_mines_block (self : SelfishMiningAttack) (d : Draw)
    (c : Clock) : result SelfishMiningAttack :=
  miner <- index (honest_miners self) (choice d) ;;
  tip <- last_item (public_chain self) ;;
  new_block <- mine_block miner (height tip + 1) (hash tip) 16 d c ;;
  let self := set_public_chain self (public_chain self ++ [new_block]) in
  let self := set_honest_blocks_mined self (honest_blocks_mined self + 1) in
  if len (public_chain self) >=? len (attacker_chain self) then
    _attacker_releases_chain self
  else Ok self.

(** The numbers [_print_results] derives and the branch its last test
    takes; the text it prints is not modelled. *)
Record Report := {
  expected_attacker_reward : float;
  actual_attacker_reward : Z;
  profit : float;
  profitable : bool
}.

Definition _print_results (self : SelfishMiningAttack) : result Report :=
  total <- float_of_int (total_blocks (config self)) ;;
  let expected_attacker_reward := fmul (attacker_hashrate (config self)) total in
  let actual_attacker_reward := attacker_blocks (public_chain self) in
  let honest_reward := expected_attacker_reward in
  let selfish_reward := actual_attacker_reward in
  selfish <- float_of_int selfish_reward ;;
  let profit := fsub selfish honest_reward in
  (* the percentage of the Profit/Loss line *)
  _ <- truediv profit honest_reward ;;
  Ok {| expected_attacker_reward := expected_attacker_reward;
        actual_attacker_reward := actual_attacker_reward;
        profit := profit;
        profitable := flt f0 profit |}.

(** One iteration of the loop of [run_simulation]; the progress lines of
    a verbose run are not modelled. *)
Definition round_body (self : SelfishMiningAttack) (d : Draw) (c : Clock)
  : result SelfishMiningAttack :=
  let random_value := random_value d in
  if flt random_value (attacker_hashrate (config self)) then
    _attacker_mines_block self d c
  else
    _honest_miner_mines_block self d c.

(** The loop over the rounds still to run; [rng round] and [clock round]
    are the draws and the clock readings of round [round]. *)
Fixpoint run_rounds (rng : Z -> Draw) (clock : Z -> Clock) (rounds : list Z)
    (self : SelfishMiningAttack) : result SelfishMiningAttack :=
  match rounds with
  | [] => Ok self
  | round :: rest =>
      self <- round_body self (rng round) (clock round) ;;
      run_rounds rng clock rest self
  end.

(** [run_simulation] up to the end of its loop. *)
Definition simulation_loop (self : SelfishMiningAttack) (rng : Z -> Draw)
    (clock : Z -> Clock) : result SelfishMiningAttack :=
  let self := initialize_genesis self in
  run_rounds rng clock (range 1 (total_blocks (config self) + 1)) self.

(** [run_simulation]: the simulator as the loop leaves it, and the report. *)
Definition run_simulation (self : SelfishMiningAttack) (rng : Z -> Draw)
    (clock : Z -> Clock) : result (SelfishMiningAttack * Report) :=
  self <- simulation_loop self rng clock ;;
  report <- _print_results self ;;
  Ok (self, report).

(** * The other scenarios *)

(** ** Ints against floats *)

Definition fadd : float -> float -> float := SFadd prec emax.

(** [n < x] and [x < n] between an int and a float are decided on the
    exact values: a finite float is the integer [m] of its sign times
    [2 ^ e], and the side with the negative exponent is scaled up. *)
Definition int_lt_float (n : Z) (x : float) : bool :=
  match x with
  | S754_nan => false
  | S754_infinity s => negb s
  | S754_zero _ => n <? 0
  | S754_finite s m e =>
      let v := if s then Z.neg m else Z.pos m in
      if 0 <=? e then n <? v * 2 ^ e else n * 2 ^ (- e) <? v
  end.

Definition float_lt_int (x : float) (n : Z) : bool :=
  match x with
  | S754_nan => false
  | S754_infinity s => s
  | S754_zero _ => 0 <? n
  | S754_finite s m e =>
      let v := if s then Z.neg m else Z.pos m in
      if 0 <=? e then v * 2 ^ e <? n else v <? n * 2 ^ (- e)
  end.

(** [sorted(l)] on ints: the ascending list, here by insertion. *)
Fixpoint insert_sorted (x : Z) (l : list Z) : list Z :=
  match l with
  | [] => [x]
  | y :: rest => if x <=? y then x :: l else y :: insert_sorted x rest
  end.

Definition sorted (l : list Z) : list Z := fold_right insert_sorted [] l.

(** [l[-n:]] for [n > 0]: the last [n] items, all of them when there are
    fewer. *)
Definition last_n {A : Type} (n : nat) (l : list A) : list A :=
  skipn (length l - n) l.

(** ** [json.dumps(tx, sort_keys=True)]

    A character of a [string] stands for the code point of the same
    number. *)

(** What a transaction holds under a key: a [str] or an [int]. *)
Inductive value :=
| Str (s : string)
| Int (n : Z).

(** A [dict] with [str] keys: its items in insertion order, no key twice. *)
Definition dict := list (string * value).

Definition quote : ascii := ascii_of_nat 34.
Definition backslash : ascii := ascii_of_nat 92.

(** One character inside a JSON string, with [ensure_ascii] on: the
    quote, the backslash and five control characters have a short
    escape, printable ASCII stands for itself, and any other code point
    is written with four hexadecimal digits. *)
Definition escape (c : ascii) : string :=
  let n := Z.of_N (N_of_ascii c) in
  if n =? 34 then String backslash (String quote EmptyString)
  else if n =? 92 then String backslash (String backslash EmptyString)
  else if n =? 10 then String backslash "n"
  else if n =? 13 then String backslash "r"
  else if n =? 9 then String backslash "t"
  else if n =? 8 then String backslash "b"
  else if n =? 12 then String backslash "f"
  else if (32 <=? n) && (n <=? 126) then String c EmptyString
  else String backslash (String "u"%char (SHA256.hex_nibbles 4 n)).

Fixpoint escape_all (s : string) : string :=
  match s with
  | EmptyString => EmptyString
  | String c rest => String.append (escape c) (escape_all rest)
  end.

Definition encode_basestring_ascii (s : string) : string :=
  String quote (String.append (escape_all s) (String quote EmptyString)).

(** [sorted(dct.items())]: ascending in the keys, compared code point by
    code point; here by insertion. *)
Fixpoint insert_item (item : string * value) (items : dict) : dict :=
  match items with
  | [] => [item]
  | item' :: rest =>
      if String.leb (fst item) (fst item') then item :: items
      else item' :: insert_item item rest
  end.

Definition sorted_items (d : dict) : dict := fold_right insert_item [] d.

(** [sep.join(l)] *)
Fixpoint join (sep : string) (l : list string) : string :=
  match l with
  | [] => EmptyString
  | [x] => x
  | x :: rest => String.append x (String.append sep (join sep rest))
  end.

Definition dumps_item (item : string * value) : string :=
  String.append (encode_basestring_ascii (fst item))
    (String.append ": "
       match snd item with
       | Str s => encode_basestring_ascii s
       | Int n => str n
       end).

Definition dumps (d : dict) : string :=
  String.append "{" (String.append (join ", " (map dumps_item (sorted_items d))) "}").

(** ** [class DoubleSpendAttack] *)
Module DoubleSpendAttack.

(** The values [run_simulation] derives and prints; the fixed text around
    them is not modelled, nor are the pauses. *)
Record Report := {
  tx_hash : string;                (* step 1, Transaction hash *)
  confirmation_heights : list Z;   (* step 2, one block height per confirmation *)
  conflicting_tx_hash : string;    (* step 4, Conflicting tx hash *)
  blocks_to_mine : Z;              (* step 5 *)
  original_chain_height : Z;       (* step 6 *)
  attacker_chain_height : Z;       (* step 6 *)
  reorganization_depth : Z         (* step 7 *)
}.

(** [_hash_tx]: the text [json.dumps] returns is ASCII, so that its
    encoding is the text itself. *)
Definition _hash_tx (tx : dict) : string :=
  let tx_str := dumps tx in
  substring 0 16 (SHA256.hexdigest tx_str).

Definition run_simulation (config : SimulationConfig) : Report :=
  let tx_to_merchant :=
    [("from", Str "attacker_address");
     ("to", Str "merchant_address");
     ("amount", Int 10000);
     ("nonce", Int 42)] in
  let tx_hash := _hash_tx tx_to_merchant in
  let confirmations := 3 in
  let heights := map (fun i => 100 + i) (range 1 (confirmations + 1)) in
  let tx_to_self :=
    [("from", Str "attacker_address");
     ("to", Str "attacker_address_2");
     ("amount", Int 10000);
     ("nonce", Int 42)] in
  let conflicting := _hash_tx tx_to_self in
  let blocks_to_mine := confirmations + 3 in
  {| tx_hash := tx_hash;
     confirmation_heights := heights;
     conflicting_tx_hash := conflicting;
     blocks_to_mine := blocks_to_mine;
     original_chain_height := 100 + confirmations;
     attacker_chain_height := 100 + blocks_to_mine;
     reorganization_depth := confirmations |}.

End DoubleSpendAttack.

(** ** [class LongRangeAttack] *)
Module LongRangeAttack.

(** The numbers [run_simulation] derives and the branches of its two
    tests; the text it prints is not modelled. *)
Record Report := {
  attacker_time : float;
  honest_blocks_during : float;
  attack_failed : bool;   (* step 5 prints ATTACK FAILED *)
  blocked : bool          (* step 7 prints ATTACK BLOCKED BY MAX_REORG_DEPTH *)
}.

Definition run_simulation (config : SimulationConfig) : result Report :=
  let current_height := 10000 in
  let attack_fork_point := 1000 in
  let blocks_to_mine := current_height - attack_fork_point in
  let honest_rate := honest_hashrate config in
  let attacker_rate := attacker_hashrate config in
  to_mine <- float_of_int blocks_to_mine ;;
  attacker_time <- truediv to_mine attacker_rate ;;
  let honest_blocks_during := fmul honest_rate attacker_time in
  height <- float_of_int current_height ;;
  let final_honest_chain := fadd height honest_blocks_during in
  let attack_failed :=
    float_lt_int final_honest_chain (current_height - attack_fork_point) in
  let max_reorg_depth := 100 in
  let reorg_depth := current_height - attack_fork_point in
  Ok {| attacker_time := attacker_time;
        honest_blocks_during := honest_blocks_during;
        attack_failed := attack_failed;
        blocked := reorg_depth >? max_reorg_depth |}.

End LongRangeAttack.

(** ** [class TimestampManipulationAttack] *)
Module TimestampManipulationAttack.

(** The numbers [run_simulation] derives and the branch of its last test;
    the text it prints, whose quotients all have a constant divisor that
    is not zero, is not modelled, nor are the pauses between blocks. *)
Record Report := {
  actual_time : Z;
  expected_time : Z;
  protected_actual_time : Z;
  partially_successful : bool  (* step 6 prints Attack partially successful *)
}.

(** The first loop over the indices still to visit. *)
Fixpoint manipulate (todo : list Z) (current_time max_future_drift : Z)
    (manipulated_blocks : list Z) : list Z :=
  match todo with
  | [] => manipulated_blocks
  | _ :: rest =>
      let manipulated_timestamp := current_time + max_future_drift - 1 in
      manipulate rest current_time max_future_drift
        (manipulated_blocks ++ [manipulated_timestamp])
  end.

(** The second loop, under the median-time-past rule. *)
Fixpoint mtp_protect (todo : list Z) (current_time max_future_drift : Z)
    (mtp_protected_blocks : list Z) : result (list Z) :=
  match todo with
  | [] => Ok mtp_protected_blocks
  | i :: rest =>
      timestamp <-
        (if i <? 11 then Ok (current_time + max_future_drift - 1)
         else
           let last_11 := last_n 11 mtp_protected_blocks in
           median <- index (sorted last_11) 5 ;;
           Ok (median + 1)) ;;
      mtp_protect rest current_time max_future_drift
        (mtp_protected_blocks ++ [timestamp])
  end.

(** [run_simulation], with [int(time.time())] as [current_time]. *)
Definition run_simulation (current_time : Z) : result Report :=
  let max_future_drift := 60 in
  let target_block_time := 600 in
  let difficulty_adjust_interval := 100 in
  let manipulated_blocks :=
    manipulate (range 0 difficulty_adjust_interval) current_time max_future_drift [] in
  first_block_time <- index manipulated_blocks 0 ;;
  last_block_time <- last_item manipulated_blocks ;;
  let actual_time := last_block_time - first_block_time in
  let expected_time := difficulty_adjust_interval * target_block_time in
  mtp_protected_blocks <-
    mtp_protect (range 0 difficulty_adjust_interval) current_time max_future_drift [] ;;
  last_protected <- last_item mtp_protected_blocks ;;
  first_protected <- index mtp_protected_blocks 0 ;;
  let protected_actual_time := last_protected - first_protected in
  expected <- float_of_int expected_time ;;
  Ok {| actual_time := actual_time;
        expected_time := expected_time;
        protected_actual_time := protected_actual_time;
        partially_successful :=
          int_lt_float protected_actual_time (fmul expected (float_lit 3 (-2))) |}.

End TimestampManipulationAttack.

(** The namespace [parser.parse_args()] returns. *)
Module Args.
Record t := {
  attack : string;
  attacker_hashrate : float;
  blocks : Z;
  verbose : bool
}.
End Args.

(** The configuration [main] builds from the arguments. *)
Definition main_config (args : Args.t) : SimulationConfig :=
  {| attacker_hashrate := Args.attacker_hashrate args;
     honest_hashrate := fsub f1 (Args.attacker_hashrate args);
     total_blocks := Args.blocks args;
     attack_type := Args.attack args;
     network_delay := float_lit 1 (-1);
     verbose := Args.verbose args |}.

Definition member (x : string) (l : list string) : bool :=
  existsb (String.eqb x) l.

(** What [main] ran: for each scenario what it derived, [None] for a
    scenario that was not selected. *)
Record Outcome := {
  selfish : option (SelfishMiningAttack * Report);
  doublespend : option DoubleSpendAttack.Report;
  longrange : option LongRangeAttack.Report;
  timewarp : option TimestampManipulationAttack.Report
}.

(** [main], after the arguments are parsed; [now] is what
    [int(time.time())] reads in the timestamp scenario.  The banners
    around the scenarios are not modelled. *)
Definition main (args : Args.t) (rng : Z -> Draw) (clock : Z -> Clock)
    (now : Z) : result Outcome :=
  let config := main_config args in
  selfish <-
    (if member (Args.attack args) ["selfish"; "all"] then
       let simulator := __init__ config in
       r <- run_simulation simulator rng clock ;;
       Ok (Some r)
     else Ok None) ;;
  doublespend <-
    (if member (Args.attack args) ["doublespend"; "all"] then
       Ok (Some (DoubleSpendAttack.run_simulation config))
     else Ok None) ;;
  longrange <-
    (if member (Args.attack args) ["longrange"; "all"] then
       r <- LongRangeAttack.run_simulation config ;;
       Ok (Some r)
     else Ok None) ;;
  timewarp <-
    (if member (Args.attack args) ["timewarp"; "all"] then
       r <- TimestampManipulationAttack.run_simulation now ;;
       Ok (Some r)
     else Ok None) ;;
  Ok {| selfish := selfish;
        doublespend := doublespend;
        longrange := longrange;
        timewarp := timewarp |}.

(** ** A run on concrete inputs *)

(** Draws that make the attacker mine exactly in the rounds listed. *)
Definition draws_of (attacker_rounds : list Z) (round : Z) : Draw :=
  {| random_value :=
       if existsb (Z.eqb round) attacker_rounds then float_lit 1 (-2)
       else float_lit 3 (-2);
     choice := Z.to_nat (round mod 3);
     expo := float_lit 1 (-1);
     randint := 1000 + round mod 1000 |}.

Definition clock_from (t0 : Z) (round : Z) : Clock :=
  {| time_hash := t0 + round; time_stamp := t0 + round |}.

Definition args_of (h : float) (n : Z) : Args.t :=
  {| Args.attack := "selfish"; Args.attacker_hashrate := h;
     Args.blocks := n; Args.verbose := false |}.

(** The same with every scenario selected. *)
Definition args_all (h : float) (n : Z) : Args.t :=
  {| Args.attack := "all"; Args.attacker_hashrate := h;
     Args.blocks := n; Args.verbose := false |}.

Definition summary (self : SelfishMiningAttack) :=
  (map miner (public_chain self), map miner (attacker_chain self),
   (attacker_blocks_mined self, honest_blocks_mined self),
   (attacker_blocks_in_main_chain self, honest_blocks_in_main_chain self,
    reorgs self)).

Definition after (self : result SelfishMiningAttack) :=
  match self with Ok s => Some (summary s) | Raise _ => None end.

(** * Vocabulary of the properties *)

(** What the [else] branch of [_attacker_releases_chain] leaves. *)
Definition abandoned (self : SelfishMiningAttack) : SelfishMiningAttack :=
  set_attacker_chain
    (set_honest_blocks_in_main_chain self
       (len (public_chain self) - attacker_blocks (public_chain self)))
    (public_chain self).

(** The number of blocks of a chain that [who] mined, by recursion on the
    chain. *)
Fixpoint mined_by (who : string) (chain : list Block) : Z :=
  match chain with
  | [] => 0
  | b :: rest =>
      (if string_dec (miner b) who then 1 else 0) + mined_by who rest
  end.

(** A state in which the public chain has caught up with a private chain
    of the same length and already carries a stale honest count. *)
Definition tied_state : SelfishMiningAttack :=
  let a := {| height := 1; hash := "a"; prev_hash := "genesis_hash";
              timestamp := 1; difficulty := 16; nonce := 1;
              transactions := []; miner := ATTACKER |} in
  let h := {| height := 1; hash := "h"; prev_hash := "genesis_hash";
              timestamp := 2; difficulty := 16; nonce := 2;
              transactions := []; miner := "HONEST_1" |} in
  set_honest_blocks_in_main_chain
    (set_attacker_chain
       (set_public_chain (__init__ (main_config (args_of (float_lit 1 (-1)) 5)))
          [genesis; h])
       [genesis; a])
    7.

(** The identifier at position [i] of a chain, if any. *)
Definition hash_at (chain : list Block) (i : nat) : option string :=
  option_map hash (nth_error chain i).

(** The block [mine_block] returns when it returns one. *)
Definition mined (self : MiningSimulator) (tip : Block) (d : Draw) (c : Clock)
  : Block :=
  {| height := height tip + 1;
     hash := SHA256.hexdigest
               (String.append (str (height tip + 1))
                  (String.append (hash tip)
                     (String.append (str (time_hash c)) (str (randint d)))));
     prev_hash := hash tip;
     timestamp := time_stamp c;
     difficulty := 16;
     nonce := randint d;
     transactions := [];
     miner := miner_id self |}.

(** The simulator after the attacker appended [b] to its chain. *)
Definition withheld (self : SelfishMiningAttack) (b : Block) : SelfishMiningAttack :=
  set_attacker_blocks_mined
    (set_attacker_chain self (attacker_chain self ++ [b]))
    (attacker_blocks_mined self + 1).

(** The simulator after an honest miner appended [b] to the public chain,
    before the release test. *)
Definition broadcast (self : SelfishMiningAttack) (b : Block) : SelfishMiningAttack :=
  set_honest_blocks_mined
    (set_public_chain self (public_chain self ++ [b]))
    (honest_blocks_mined self + 1).

(** [reachable cfg n self]: some run configured with [cfg] has [self] as
    its simulator after [n] completed rounds, whatever was drawn and read
    from the clock in each of them. *)
Inductive reachable (cfg : SimulationConfig) : nat -> SelfishMiningAttack -> Prop :=
| reach_genesis :
    reachable cfg 0 (initialize_genesis (__init__ cfg))
| reach_round (n : nat) (self self' : SelfishMiningAttack) (d : Draw) (c : Clock) :
    reachable cfg n self ->
    round_body self d c = Ok self' ->
    reachable cfg (S n) self'.

(** The run used to exhibit reachable states: five rounds at hashrate
    [0.5], the attacker mining rounds 1 and 2. *)
Definition half : float := float_lit 1 (-1).
Definition demo_config : SimulationConfig := main_config (args_of half 5).
Definition demo_rng : Z -> Draw := draws_of [1; 2].
Definition demo_clock : Z -> Clock := clock_from 1763452800.

(** A configuration whose honest hashrate is [-2 ^ -30], just below zero. *)
Definition slow_config : SimulationConfig :=
  {| attacker_hashrate := half;
     honest_hashrate := float_lit (-1) (-30);
     total_blocks := 5;
     attack_type := "selfish";
     network_delay := half;
     verbose := false |}.

(** Zero of either sign, a positive finite number or plus infinity. *)
Definition nonneg (x : float) : Prop :=
  match x with
  | S754_zero _ | S754_finite false _ _ | S754_infinity false => True
  | _ => False
  end.

(** [x] is not NaN and carries the sign [s]. *)
Definition signed (s : bool) (x : float) : Prop :=
  match x with
  | S754_nan => False
  | S754_zero s' | S754_infinity s' | S754_finite s' _ _ => s' = s
  end.

(** The private chain is level with the public one and the attacker has
    mined nothing: what every round leaves when the hashrate is zero. *)
Definition level (cfg : SimulationConfig) (self : SelfishMiningAttack) : Prop :=
  config self = cfg /\
  honest_miners self = honest_miners (__init__ cfg) /\
  attacker_chain self = public_chain self /\
  public_chain self <> [] /\
  reorgs self = 0 /\
  attacker_blocks_mined self = 0.

(** The attacker has withheld [k] blocks, the public chain is the genesis
    block alone and the release routine has not run: what [k] rounds
    leave when the hashrate is one. *)
Definition withholding (cfg : SimulationConfig) (k : Z)
    (self : SelfishMiningAttack) : Prop :=
  config self = cfg /\
  attacker_miner self = attacker_miner (__init__ cfg) /\
  public_chain self = [genesis] /\
  attacker_chain self <> [] /\
  len (attacker_chain self) = k + 1 /\
  attacker_blocks_mined self = k /\
  honest_blocks_mined self = 0 /\
  honest_blocks_in_main_chain self = 0 /\
  reorgs self = 0 /\
  attacker_blocks_in_main_chain self = 0.

(** The class the specification names for a refused configuration; the
    script defines none of that name. *)
Definition InvalidConfiguration : exn := "InvalidConfiguration".

(** The exceptions the interpreter raises in the calls modelled above. *)
Definition builtin (e : exn) : Prop :=
  e = ZeroDivisionError \/ e = ValueError \/ e = IndexError \/ e = OverflowError.

(** Whatever [r] raises is one of them. *)
Definition raises_builtin {A : Type} (r : result A) : Prop :=
  forall e, r = Raise e -> builtin e.

(** Blocks that agree on all that is not read from the clock: the
    timestamp is a clock reading, the identifier hashes one, and the
    parent identifier is the identifier of the block before. *)
Definition same_block (b1 b2 : Block) : Prop :=
  height b1 = height b2 /\
  difficulty b1 = difficulty b2 /\
  nonce b1 = nonce b2 /\
  transactions b1 = transactions b2 /\
  miner b1 = miner b2.

Definition same_chain : list Block -> list Block -> Prop := Forall2 same_block.

Definition same_simulator (s1 s2 : SelfishMiningAttack) : Prop :=
  config s1 = config s2 /\
  attacker_miner s1 = attacker_miner s2 /\
  honest_miners s1 = honest_miners s2 /\
  same_chain (public_chain s1) (public_chain s2) /\
  same_chain (attacker_chain s1) (attacker_chain s2) /\
  attacker_blocks_mined s1 = attacker_blocks_mined s2 /\
  honest_blocks_mined s1 = honest_blocks_mined s2 /\
  attacker_blocks_in_main_chain s1 = attacker_blocks_in_main_chain s2 /\
  honest_blocks_in_main_chain s1 = honest_blocks_in_main_chain s2 /\
  reorgs s1 = reorgs s2.

(** Both raise the same exception, or both return and the values are
    related. *)
Definition same_result {A : Type} (R : A -> A -> Prop) (r1 r2 : result A) : Prop :=
  match r1, r2 with
  | Ok a1, Ok a2 => R a1 a2
  | Raise e1, Raise e2 => e1 = e2
  | _, _ => False
  end.

(** Two runs of the selfish-mining scenario: simulators that agree as
    above, and equal reports. *)
Definition same_run (r1 r2 : SelfishMiningAttack * Report) : Prop :=
  same_simulator (fst r1) (fst r2) /\ snd r1 = snd r2.

Definition same_option {A : Type} (R : A -> A -> Prop) (o1 o2 : option A) : Prop :=
  match o1, o2 with
  | Some a1, Some a2 => R a1 a2
  | None, None => True
  | _, _ => False
  end.

(** The same scenarios ran; the selfish-mining runs agree as above and
    the other scenarios derived the same values. *)
Definition same_outcome (o1 o2 : Outcome) : Prop :=
  same_option same_run (selfish o1) (selfish o2) /\
  doublespend o1 = doublespend o2 /\
  longrange o1 = longrange o2 /\
  timewarp o1 = timewarp o2.

(** A simulator whose public chain holds two blocks of the attacker, as
    a release of the private chain would leave it, at hashrate 0.5 and
    with [n] rounds configured. *)
Definition released_state (n : Z) : SelfishMiningAttack :=
  let a1 := {| height := 1; hash := "a1"; prev_hash := "genesis_hash";
               timestamp := 1; difficulty := 16; nonce := 1;
               transactions := []; miner := ATTACKER |} in
  let a2 := {| height := 2; hash := "a2"; prev_hash := "a1";
               timestamp := 2; difficulty := 16; nonce := 2;
               transactions := []; miner := ATTACKER |} in
  set_public_chain (__init__ (main_config (args_of (float_lit 1 (-1)) n)))
    [genesis; a1; a2].

(** * Vocabulary of the further properties *)

(** A chain grown from the genesis block, each block one higher than the
    tip it was mined on and naming that tip's identifier. *)
Inductive grown : list Block -> Prop :=
| grown_genesis : grown [genesis]
| grown_snoc (chain : list Block) (tip b : Block) :
    grown chain ->
    last_item chain = Ok tip ->
    height b = height tip + 1 ->
    prev_hash b = hash tip ->
    grown (chain ++ [b]).

(** How far above the first timestamp the block at position [i] is
    stamped under the rule: not at all for the first eleven blocks, then
    one second more with every six blocks. *)
Definition mtp_offset (i : Z) : Z := if i <? 11 then 0 else (i - 11) / 6 + 1.

(** The positive number [m * 2 ^ e] is at least the integer [n]. *)
Definition at_least (n m e : Z) : Prop :=
  if 0 <=? e then n <= m * 2 ^ e else n * 2 ^ (- e) <= m.

(** * Properties *)

(** ** The hash function on the standard vectors *)

Example sha256_empty :
  SHA256.hexdigest "" =
  "e3b0c44298fc1c149afbf4c8996fb92427ae41e4649b934ca495991b7852b855".
Proof. vm_compute. reflexivity. Qed.

Example sha256_abc :
  SHA256.hexdigest "abc" =
  "ba7816bf8f01cfea414140de5dae2223b00361a396177a9cb410ff61f20015ad".
Proof. vm_compute. reflexivity. Qed.

Example sha256_two_blocks :
  SHA256.hexdigest "abcdbcdecdefdefgefghfghighijhijkijkljklmklmnlmnomnopnopq" =
  "248d6a61d20638b8e5c026930c3e6039a33ce45964ff2167f6ecedd419db06c1".
Proof. vm_compute. reflexivity. Qed.

(** ** The transaction hashes *)

(** Escapes, on the code points 1, 10, 127, 233, 9, 8, 12, 13, the
    backslash and [A]. *)
Example escape_all_controls :
  escape_all (string_of_list_ascii
                (map ascii_of_nat [1; 10; 127; 233; 9; 8; 12; 13; 92; 65])%nat) =
  "\u0001\n\u007f\u00e9\t\b\f\r\\A".
Proof. vm_compute. reflexivity. Qed.

(** Keys are sorted by code point, a prefix before its extensions. *)
Example sorted_items_keys :
  map fst (sorted_items [("b", Int 1); ("aa", Int 2); ("a", Int 3);
                         ("B", Int 4); (EmptyString, Int 5)]) =
  [EmptyString; "B"; "a"; "aa"; "b"].
Proof. vm_compute. reflexivity. Qed.

(** What the double-spend scenario prints, whatever the configuration. *)
Lemma double_spend_values (config : SimulationConfig) :
  DoubleSpendAttack.run_simulation config =
  {| DoubleSpendAttack.tx_hash := "89cb6ddaba1b7e87";
     DoubleSpendAttack.confirmation_heights := [101; 102; 103];
     DoubleSpendAttack.conflicting_tx_hash := "d96037566c5f6f95";
     DoubleSpendAttack.blocks_to_mine := 6;
     DoubleSpendAttack.original_chain_height := 103;
     DoubleSpendAttack.attacker_chain_height := 106;
     DoubleSpendAttack.reorganization_depth := 3 |}.
Proof. vm_compute. reflexivity. Qed.

(** ** Sequencing and lengths *)

Lemma bind_Ok {A B : Type} (m : result A) (k : A -> result B) (b : B) :
  bind m k = Ok b -> exists a, m = Ok a /\ k a = Ok b.
Proof.
  destruct m as [a|e]; simpl; intros H; [exists a; auto | discriminate].
Qed.

Ltac inv_bind H :=
  let a := fresh "x" in
  let Ha := fresh "Hx" in
  apply bind_Ok in H; destruct H as (a & Ha & H).

Lemma len_app_one {A : Type} (l : list A) (x : A) : len (l ++ [x]) = len l + 1.
Proof. unfold len. rewrite length_app. simpl. lia. Qed.

Lemma last_item_app {A : Type} (l : list A) (x : A) : last_item (l ++ [x]) = Ok x.
Proof. unfold last_item. rewrite rev_app_distr. reflexivity. Qed.

Lemma last_item_Ok {A : Type} (l : list A) :
  l <> [] -> exists x, last_item l = Ok x.
Proof.
  intros Hne. destruct (exists_last Hne) as (l' & x & ->).
  exists x. apply last_item_app.
Qed.

Lemma range_empty (lo hi : Z) : hi <= lo -> range lo hi = [].
Proof.
  intros H. unfold range. replace (Z.to_nat (hi - lo)) with O by lia. reflexivity.
Qed.

Lemma length_range (lo hi : Z) : length (range lo hi) = Z.to_nat (hi - lo).
Proof. unfold range. rewrite length_map, length_seq. reflexivity. Qed.

(** ** The release routine *)

Lemma release_not_longer (self : SelfishMiningAttack) :
  len (attacker_chain self) <= len (public_chain self) ->
  _attacker_releases_chain self = Ok (abandoned self).
Proof.
  intros Hle. unfold _attacker_releases_chain.
  destruct (len (attacker_chain self) >? len (public_chain self)) eqn:Hgt.
  - apply Z.gtb_lt in Hgt. lia.
  - reflexivity.
Qed.

Lemma attacker_blocks_mined_by (chain : list Block) :
  attacker_blocks chain = mined_by ATTACKER chain.
Proof.
  unfold attacker_blocks, len. induction chain as [|b rest IH]; simpl.
  - reflexivity.
  - destruct (string_dec (miner b) ATTACKER) as [Heq|Hne].
    + apply String.eqb_eq in Heq. rewrite Heq. simpl length.
      rewrite Nat2Z.inj_succ, IH. lia.
    + apply String.eqb_neq in Hne. rewrite Hne, IH. lia.
Qed.

(** C5: when the release routine runs with the private chain not longer
    than the public one (a tie included), it takes the abandon branch:
    [honest_blocks_in_main_chain] is overwritten with the public length
    minus the number of attacker-mined public blocks, the private chain
    becomes the public chain, and the public chain, the reorg count and
    the other counters are left as they were. *)
Theorem release_abandons_when_not_longer (self : SelfishMiningAttack) :
  len (attacker_chain self) <= len (public_chain self) ->
  exists self',
    _attacker_releases_chain self = Ok self' /\
    honest_blocks_in_main_chain self' =
      len (public_chain self) - mined_by ATTACKER (public_chain self) /\
    attacker_chain self' = public_chain self /\
    public_chain self' = public_chain self /\
    reorgs self' = reorgs self /\
    attacker_blocks_in_main_chain self' = attacker_blocks_in_main_chain self /\
    attacker_blocks_mined self' = attacker_blocks_mined self /\
    honest_blocks_mined self' = honest_blocks_mined self.
Proof.
  intros Hle. exists (abandoned self). split.
  - apply release_not_longer. exact Hle.
  - simpl. rewrite attacker_blocks_mined_by. repeat split; reflexivity.
Qed.

Lemma release_abandons_when_not_longer_witness :
  len (attacker_chain tied_state) <= len (public_chain tied_state) /\
  exists self',
    _attacker_releases_chain tied_state = Ok self' /\
    honest_blocks_in_main_chain self' =
      len (public_chain tied_state) - mined_by ATTACKER (public_chain tied_state) /\
    attacker_chain self' = public_chain tied_state /\
    public_chain self' = public_chain tied_state /\
    reorgs self' = reorgs tied_state /\
    attacker_blocks_in_main_chain self' = attacker_blocks_in_main_chain tied_state /\
    attacker_blocks_mined self' = attacker_blocks_mined tied_state /\
    honest_blocks_mined self' = honest_blocks_mined tied_state.
Proof.
  split.
  - vm_compute. discriminate.
  - apply (release_abandons_when_not_longer tied_state). vm_compute. discriminate.
Defined.

(** ** The fork point *)

Lemma index_hash_at (chain : list Block) (i : nat) :
  (i < length chain)%nat ->
  exists b, index chain i = Ok b /\ hash_at chain i = Some (hash b).
Proof.
  intros Hi. unfold index, hash_at.
  destruct (nth_error chain i) as [b|] eqn:E.
  - exists b. split; reflexivity.
  - apply nth_error_None in E. lia.
Qed.

Section ForkPoint.
Variable self : SelfishMiningAttack.
Let pub := public_chain self.
Let att := attacker_chain self.

(** The scan from position [a] over [m] positions inside both chains
    stops at the first position whose identifiers differ, and returns
    [stop] when there is none. *)
Lemma _find_fork_point_loop_scan (stop : Z) (m a : nat) :
  (a + m <= Nat.min (length pub) (length att))%nat ->
  (_find_fork_point_loop self (map (fun i => 0 + Z.of_nat i) (seq a m)) stop = Ok stop /\
   forall i, (a <= i < a + m)%nat -> hash_at pub i = hash_at att i)
  \/
  (exists j, (a <= j < a + m)%nat /\
     _find_fork_point_loop self (map (fun i => 0 + Z.of_nat i) (seq a m)) stop
       = Ok (Z.of_nat j) /\
     hash_at pub j <> hash_at att j /\
     forall i, (a <= i < j)%nat -> hash_at pub i = hash_at att i).
Proof.
  revert a. induction m as [|m IH]; intros a Hle.
  - left. split; [reflexivity | intros i Hi; lia].
  - simpl seq. simpl map. simpl _find_fork_point_loop.
    rewrite Nat2Z.id.
    destruct (index_hash_at pub a) as (p & Hp & Hhp); [lia|].
    destruct (index_hash_at att a) as (q & Hq & Hhq); [lia|].
    fold pub att. rewrite Hp, Hq. simpl bind.
    destruct (String.eqb (hash p) (hash q)) eqn:E; simpl negb; cbv iota.
    + apply String.eqb_eq in E.
      destruct (IH (S a)) as [(Hrun & Hall) | (j & Hj & Hrun & Hne & Hall)]; [lia| |].
      * left. split; [exact Hrun|].
        intros i Hi. destruct (Nat.eq_dec i a) as [->|Hia].
        -- rewrite Hhp, Hhq, E. reflexivity.
        -- apply Hall. lia.
      * right. exists j. split; [lia|]. split; [exact Hrun|]. split; [exact Hne|].
        intros i Hi. destruct (Nat.eq_dec i a) as [->|Hia].
        -- rewrite Hhp, Hhq, E. reflexivity.
        -- apply Hall. lia.
    + apply String.eqb_neq in E. right. exists a.
      split; [lia|]. split; [reflexivity|]. split.
      * rewrite Hhp, Hhq. congruence.
      * intros i Hi. lia.
Qed.

Lemma _find_fork_point_first :
  exists k : nat,
    _find_fork_point self = Ok (Z.of_nat k) /\
    (k <= Nat.min (length pub) (length att))%nat /\
    (forall i, (i < k)%nat -> hash_at pub i = hash_at att i) /\
    ((k < Nat.min (length pub) (length att))%nat ->
     hash_at pub k <> hash_at att k).
Proof.
  unfold _find_fork_point, range. fold pub att.
  set (n := Nat.min (length pub) (length att)).
  assert (Hn : Z.min (len pub) (len att) = Z.of_nat n).
  { unfold len, n. lia. }
  rewrite Hn. replace (Z.of_nat n - 0) with (Z.of_nat n) by lia.
  rewrite Nat2Z.id.
  destruct (_find_fork_point_loop_scan (Z.of_nat n) n 0)
    as [(Hrun & Hall) | (j & Hj & Hrun & Hne & Hall)]; [fold n; lia | |].
  - exists n. split; [exact Hrun|]. split; [lia|]. split.
    + intros i Hi. apply Hall. lia.
    + intros Hlt. lia.
  - exists j. split; [exact Hrun|]. split; [lia|]. split.
    + intros i Hi. apply Hall. lia.
    + intros _. exact Hne.
Qed.
End ForkPoint.

(** C6: for every pair of chains the fork point is the first position,
    among those both chains have, at which the block identifiers differ,
    and the length of the shorter chain when they agree on all of them;
    chains [G, A, B, C1] and [G, A, B, C2] with different last identifiers
    have fork point 3. *)
Theorem fork_point_first_divergence :
  (forall self : SelfishMiningAttack,
     exists k : nat,
       _find_fork_point self = Ok (Z.of_nat k) /\
       (k <= Nat.min (length (public_chain self)) (length (attacker_chain self)))%nat /\
       (forall i, (i < k)%nat ->
          hash_at (public_chain self) i = hash_at (attacker_chain self) i) /\
       ((k < Nat.min (length (public_chain self)) (length (attacker_chain self)))%nat ->
        hash_at (public_chain self) k <> hash_at (attacker_chain self) k)) /\
  (forall (self : SelfishMiningAttack) (G A B C1 C2 : Block),
     public_chain self = [G; A; B; C1] ->
     attacker_chain self = [G; A; B; C2] ->
     hash C1 <> hash C2 ->
     _find_fork_point self = Ok 3).
Proof.
  split.
  - intros self. apply _find_fork_point_first.
  - intros self G A B C1 C2 Hpub Hatt Hne.
    destruct (_find_fork_point_first self) as (k & Hrun & Hle & Hsame & Hdiff).
    rewrite Hrun. rewrite Hpub, Hatt in *. simpl length in *. simpl Nat.min in *.
    assert (Hk : k = 3%nat).
    { destruct (Nat.lt_ge_cases k 3) as [Hlt|Hge].
      - exfalso. apply Hdiff; [lia|].
        destruct k as [|[|[|k]]]; try reflexivity. lia.
      - destruct (Nat.eq_dec k 3) as [->|Hk3]; [reflexivity|].
        exfalso. specialize (Hsame 3%nat ltac:(lia)).
        unfold hash_at in Hsame. simpl in Hsame. congruence. }
    subst k. reflexivity.
Qed.

(** ** One round *)

Lemma mine_block_Ok (self : MiningSimulator) (tip : Block) (d : Draw)
    (c : Clock) (b : Block) :
  mine_block self (height tip + 1) (hash tip) 16 d c = Ok b ->
  b = mined self tip d c.
Proof.
  unfold mine_block. intros H.
  inv_bind H. inv_bind H. injection H as <-. reflexivity.
Qed.

Lemma _attacker_mines_block_Ok (self self' : SelfishMiningAttack) (d : Draw) (c : Clock) :
  _attacker_mines_block self d c = Ok self' ->
  exists tip,
    last_item (attacker_chain self) = Ok tip /\
    self' = withheld self (mined (attacker_miner self) tip d c).
Proof.
  unfold _attacker_mines_block. intros H.
  inv_bind H. rename x into tip. inv_bind H. rename x into b.
  apply mine_block_Ok in Hx0. subst b.
  injection H as <-. exists tip. split; [assumption | reflexivity].
Qed.

Lemma _honest_miner_mines_block_eq (self : SelfishMiningAttack) (d : Draw) (c : Clock) :
  _honest_miner_mines_block self d c =
  (m <- index (honest_miners self) (choice d) ;;
   tip <- last_item (public_chain self) ;;
   b <- mine_block m (height tip + 1) (hash tip) 16 d c ;;
   let s1 := broadcast self b in
   if len (public_chain s1) >=? len (attacker_chain s1)
   then _attacker_releases_chain s1 else Ok s1).
Proof. reflexivity. Qed.

(** An honest round ends in the abandon branch of the release routine when
    the public chain has caught up, and without a release otherwise: the
    win branch is never taken. *)
Lemma _honest_miner_mines_block_Ok (self self' : SelfishMiningAttack) (d : Draw) (c : Clock) :
  _honest_miner_mines_block self d c = Ok self' ->
  exists m tip,
    index (honest_miners self) (choice d) = Ok m /\
    last_item (public_chain self) = Ok tip /\
    let s1 := broadcast self (mined m tip d c) in
    (len (attacker_chain s1) <= len (public_chain s1) /\ self' = abandoned s1) \/
    (len (public_chain s1) < len (attacker_chain s1) /\ self' = s1).
Proof.
  rewrite _honest_miner_mines_block_eq. intros H.
  inv_bind H. rename x into m. inv_bind H. rename x into tip.
  inv_bind H. rename x into b.
  apply mine_block_Ok in Hx1. subst b.
  exists m, tip. split; [assumption|]. split; [assumption|].
  cbv zeta in *.
  set (s1 := broadcast self (mined m tip d c)) in *.
  destruct (len (public_chain s1) >=? len (attacker_chain s1)) eqn:E.
  - apply Z.geb_le in E. left. split; [exact E|].
    rewrite (release_not_longer s1 E) in H. injection H as <-. reflexivity.
  - rewrite Z.geb_leb in E. apply Z.leb_gt in E. right. split; [exact E|].
    injection H as <-. reflexivity.
Qed.

(** An honest round that returns, spelled out from its three calls. *)
Lemma honest_round_caught_up (self : SelfishMiningAttack) (d : Draw) (c : Clock)
    (m : MiningSimulator) (tip b : Block) :
  index (honest_miners self) (choice d) = Ok m ->
  last_item (public_chain self) = Ok tip ->
  mine_block m (height tip + 1) (hash tip) 16 d c = Ok b ->
  len (attacker_chain (broadcast self b)) <= len (public_chain (broadcast self b)) ->
  _honest_miner_mines_block self d c = Ok (abandoned (broadcast self b)).
Proof.
  intros Hm Htip Hb Hlen.
  rewrite _honest_miner_mines_block_eq, Hm. unfold bind at 1.
  rewrite Htip. unfold bind at 1. rewrite Hb. unfold bind. cbv zeta.
  destruct (len (public_chain (broadcast self b)) >=?
            len (attacker_chain (broadcast self b))) eqn:E.
  - apply release_not_longer, Hlen.
  - rewrite Z.geb_leb in E. apply Z.leb_gt in E. lia.
Qed.

(** What every round leaves alone and what it counts. *)
Lemma round_body_frame (self self' : SelfishMiningAttack) (d : Draw) (c : Clock) :
  round_body self d c = Ok self' ->
  config self' = config self /\
  attacker_miner self' = attacker_miner self /\
  honest_miners self' = honest_miners self /\
  reorgs self' = reorgs self /\
  attacker_blocks_in_main_chain self' = attacker_blocks_in_main_chain self /\
  ((attacker_blocks_mined self' = attacker_blocks_mined self + 1 /\
    honest_blocks_mined self' = honest_blocks_mined self) \/
   (attacker_blocks_mined self' = attacker_blocks_mined self /\
    honest_blocks_mined self' = honest_blocks_mined self + 1)).
Proof.
  unfold round_body. intros H.
  destruct (flt (random_value d) (attacker_hashrate (config self))).
  - apply _attacker_mines_block_Ok in H. destruct H as (tip & _ & ->).
    simpl. repeat split; auto.
  - apply _honest_miner_mines_block_Ok in H.
    destruct H as (m & tip & _ & _ & [(_ & ->) | (_ & ->)]);
      simpl; repeat split; auto.
Qed.

(** ** Reachable states *)

Lemma run_rounds_reachable (cfg : SimulationConfig) (rng : Z -> Draw)
    (clock : Z -> Clock) (rounds : list Z) :
  forall (n : nat) (self self' : SelfishMiningAttack),
    reachable cfg n self ->
    run_rounds rng clock rounds self = Ok self' ->
    reachable cfg (n + length rounds) self'.
Proof.
  induction rounds as [|r rest IH]; intros n self self' Hreach Hrun; simpl in *.
  - injection Hrun as <-. rewrite Nat.add_0_r. exact Hreach.
  - inv_bind Hrun. rewrite Nat.add_succ_r.
    apply (IH (S n) x self'); [|exact Hrun].
    eapply reach_round; eassumption.
Qed.

(** The state the loop ends in is reachable in as many rounds as
    [range(1, total_blocks + 1)] has elements. *)
Lemma simulation_loop_reachable (cfg : SimulationConfig) (rng : Z -> Draw)
    (clock : Z -> Clock) (self : SelfishMiningAttack) :
  simulation_loop (__init__ cfg) rng clock = Ok self ->
  reachable cfg (Z.to_nat (total_blocks cfg)) self.
Proof.
  unfold simulation_loop. intros H.
  apply (run_rounds_reachable cfg rng clock _ 0 _ _ (reach_genesis cfg)) in H.
  rewrite length_range in H. simpl in H.
  replace (total_blocks cfg + 1 - 1) with (total_blocks cfg) in H by lia.
  exact H.
Qed.

(** The state after the first [k] rounds of a run is reachable in [k]
    rounds. *)
Lemma prefix_reachable (cfg : SimulationConfig) (rng : Z -> Draw)
    (clock : Z -> Clock) (k : Z) (self : SelfishMiningAttack) :
  run_rounds rng clock (range 1 (k + 1)) (initialize_genesis (__init__ cfg)) = Ok self ->
  reachable cfg (Z.to_nat k) self.
Proof.
  intros H.
  apply (run_rounds_reachable cfg rng clock _ 0 _ _ (reach_genesis cfg)) in H.
  rewrite length_range in H. simpl in H.
  replace (k + 1 - 1) with k in H by lia.
  exact H.
Qed.

Lemma reachable_config (cfg : SimulationConfig) (n : nat) (self : SelfishMiningAttack) :
  reachable cfg n self ->
  config self = cfg /\
  attacker_miner self = attacker_miner (__init__ cfg) /\
  honest_miners self = honest_miners (__init__ cfg).
Proof.
  induction 1 as [|n self self' d c Hreach IH Hstep].
  - repeat split; reflexivity.
  - apply round_body_frame in Hstep.
    destruct Hstep as (Hc & Ha & Hh & _). destruct IH as (IHc & IHa & IHh).
    repeat split; congruence.
Qed.

(** C2: in every state a run can reach, whatever the configuration and
    the draws, [reorgs] and [attacker_blocks_in_main_chain] are 0: the
    release routine is entered only with the public chain at least as long
    as the private one, where it takes the abandon branch. *)
Theorem win_branch_unreachable (cfg : SimulationConfig) (n : nat)
    (self : SelfishMiningAttack) :
  reachable cfg n self ->
  reorgs self = 0 /\ attacker_blocks_in_main_chain self = 0.
Proof.
  induction 1 as [|n self self' d c Hreach IH Hstep].
  - split; reflexivity.
  - apply round_body_frame in Hstep.
    destruct Hstep as (_ & _ & _ & Hr & Ha & _). lia.
Qed.

Lemma win_branch_unreachable_witness :
  exists self,
    simulation_loop (__init__ demo_config) demo_rng demo_clock = Ok self /\
    reorgs self = 0 /\ attacker_blocks_in_main_chain self = 0.
Proof.
  destruct (simulation_loop (__init__ demo_config) demo_rng demo_clock)
    as [self|e] eqn:E.
  - exists self. split; [reflexivity|].
    apply (win_branch_unreachable demo_config (Z.to_nat (total_blocks demo_config)) self).
    apply (simulation_loop_reachable demo_config demo_rng demo_clock). exact E.
  - exfalso. vm_compute in E. discriminate E.
Defined.

(** C7: after [n] completed rounds of any run,
    [attacker_blocks_mined + honest_blocks_mined] is [n], and every round
    that completes adds one to exactly one of the two counters. *)
Theorem mined_counters_count_rounds (cfg : SimulationConfig) (n : nat)
    (self : SelfishMiningAttack) :
  reachable cfg n self ->
  attacker_blocks_mined self + honest_blocks_mined self = Z.of_nat n /\
  forall d c self',
    round_body self d c = Ok self' ->
    (attacker_blocks_mined self' = attacker_blocks_mined self + 1 /\
     honest_blocks_mined self' = honest_blocks_mined self) \/
    (attacker_blocks_mined self' = attacker_blocks_mined self /\
     honest_blocks_mined self' = honest_blocks_mined self + 1).
Proof.
  intros Hreach. split.
  - induction Hreach as [|n self self' d c Hreach IH Hstep].
    + reflexivity.
    + apply round_body_frame in Hstep.
      destruct Hstep as (_ & _ & _ & _ & _ & Hcount). lia.
  - intros d c self' Hstep. apply round_body_frame in Hstep.
    destruct Hstep as (_ & _ & _ & _ & _ & Hcount). exact Hcount.
Qed.

Lemma mined_counters_count_rounds_witness :
  exists self,
    simulation_loop (__init__ demo_config) demo_rng demo_clock = Ok self /\
    attacker_blocks_mined self + honest_blocks_mined self = 5 /\
    forall d c self',
      round_body self d c = Ok self' ->
      (attacker_blocks_mined self' = attacker_blocks_mined self + 1 /\
       honest_blocks_mined self' = honest_blocks_mined self) \/
      (attacker_blocks_mined self' = attacker_blocks_mined self /\
       honest_blocks_mined self' = honest_blocks_mined self + 1).
Proof.
  destruct (simulation_loop (__init__ demo_config) demo_rng demo_clock)
    as [self|e] eqn:E.
  - exists self. split; [reflexivity|].
    apply (mined_counters_count_rounds demo_config 5 self).
    apply (simulation_loop_reachable demo_config demo_rng demo_clock). exact E.
  - exfalso. vm_compute in E. discriminate E.
Defined.

(** ** Floats: signs *)

Lemma fle_f0_nonneg (x : float) : fle f0 x = true -> nonneg x.
Proof. destruct x as [s|s| |s m e]; try destruct s; simpl; intros H; auto; discriminate. Qed.

Lemma flt_nonneg_zero (x : float) (s : bool) :
  nonneg x -> flt x (S754_zero s) = false.
Proof. destruct x as [s'|s'| |s' m e]; try destruct s'; simpl; intros H; auto; contradiction. Qed.

Lemma shr_1_nonneg (mrs : shr_record) : 0 <= shr_m mrs -> 0 <= shr_m (shr_1 mrs).
Proof.
  destruct mrs as [m r s]. simpl. intros H.
  destruct m as [|p|p]; [simpl; lia | destruct p; simpl; lia | lia].
Qed.

Lemma iter_pos_shr_1_nonneg (p : positive) :
  forall mrs, 0 <= shr_m mrs -> 0 <= shr_m (iter_pos shr_1 p mrs).
Proof.
  induction p as [p IH|p IH|]; intros mrs H; simpl.
  - apply IH, IH, shr_1_nonneg, H.
  - apply IH, IH, H.
  - apply shr_1_nonneg, H.
Qed.

Lemma shr_fexp_nonneg (m e : Z) (l : location) :
  0 <= m -> 0 <= shr_m (fst (shr_fexp prec emax m e l)).
Proof.
  intros H. unfold shr_fexp, shr.
  assert (H0 : 0 <= shr_m (shr_record_of_loc m l)).
  { destruct l as [|[| |]]; simpl; exact H. }
  destruct (fexp prec emax (Zdigits2 m + e) - e) as [|p|p]; simpl;
    [exact H0 | apply iter_pos_shr_1_nonneg, H0 | exact H0].
Qed.

Lemma round_nearest_even_nonneg (m : Z) (l : location) :
  0 <= m -> 0 <= round_nearest_even m l.
Proof.
  intros H. destruct l as [|[| |]]; simpl; try lia.
  destruct (Z.even m); lia.
Qed.

(** Rounding a non-negative mantissa keeps the sign asked for and never
    gives NaN. *)
Lemma binary_round_aux_signed (s : bool) (m e : Z) (l : location) :
  0 <= m -> signed s (binary_round_aux prec emax s m e l).
Proof.
  intros H. unfold binary_round_aux.
  pose proof (shr_fexp_nonneg m e l H) as H1.
  destruct (shr_fexp prec emax m e l) as [mrs' e'] eqn:E1. simpl in H1.
  pose proof (shr_fexp_nonneg
                (round_nearest_even (shr_m mrs') (loc_of_shr_record mrs')) e'
                loc_Exact (round_nearest_even_nonneg _ _ H1)) as H2.
  destruct (shr_fexp prec emax _ e' loc_Exact) as [mrs'' e''] eqn:E2. simpl in H2.
  destruct (shr_m mrs'') as [|p|p]; unfold signed.
  - reflexivity.
  - destruct (e'' <=? emax - prec); reflexivity.
  - lia.
Qed.

Lemma digits2_pos_size (p : positive) : digits2_pos p = Pos.size p.
Proof. induction p as [p IH|p IH|]; simpl; [rewrite IH| rewrite IH|]; reflexivity. Qed.

Lemma digits2_pos_lower (p : positive) : 2 ^ (Z.pos (digits2_pos p) - 1) <= Z.pos p.
Proof.
  rewrite digits2_pos_size.
  pose proof (Pos.size_le p) as H.
  apply Pos2Z.pos_le_pos in H. rewrite Pos2Z.inj_pow in H.
  replace (Z.pos (Pos.size p)) with (Z.pos (Pos.size p) - 1 + 1) in H by lia.
  rewrite Z.pow_add_r in H by lia. change (Z.pos p~0) with (2 * Z.pos p) in H.
  change (Z.pos 2) with 2 in H. lia.
Qed.

Lemma shr_1_half (mrs : shr_record) :
  0 <= shr_m mrs -> shr_m (shr_1 mrs) = shr_m mrs / 2.
Proof.
  destruct mrs as [m r s]. simpl. intros H.
  destruct m as [|p|p]; [reflexivity | | lia].
  destruct p as [p|p|]; simpl.
  - rewrite Pos2Z.inj_xI. apply Z.div_unique with (r := 1); lia.
  - rewrite Pos2Z.inj_xO. apply Z.div_unique with (r := 0); lia.
  - reflexivity.
Qed.

Lemma iter_pos_shr_1_div (p : positive) :
  forall mrs, 0 <= shr_m mrs ->
  shr_m (iter_pos shr_1 p mrs) = shr_m mrs / 2 ^ Z.pos p.
Proof.
  induction p as [p IH|p IH|]; intros mrs H; simpl iter_pos.
  - rewrite IH by (apply iter_pos_shr_1_nonneg, shr_1_nonneg, H).
    rewrite IH by (apply shr_1_nonneg, H).
    rewrite shr_1_half by exact H.
    rewrite !Z.div_div by lia.
    f_equal. replace (Z.pos p~1) with (1 + Z.pos p + Z.pos p) by lia.
    rewrite !Z.pow_add_r by lia. change (2 ^ 1) with 2. lia.
  - rewrite IH by (apply iter_pos_shr_1_nonneg, H).
    rewrite IH by exact H.
    rewrite Z.div_div by lia.
    f_equal. replace (Z.pos p~0) with (Z.pos p + Z.pos p) by lia.
    rewrite Z.pow_add_r by lia. lia.
  - rewrite shr_1_half by exact H. reflexivity.
Qed.

(** What [shr_fexp] does to a positive mantissa: nothing, or a shift right
    by the number of bits above the format's. *)
Lemma shr_fexp_cases (p : positive) (e : Z) (l : location) :
  let n := fexp prec emax (Z.pos (digits2_pos p) + e) - e in
  (n <= 0 /\ shr_fexp prec emax (Z.pos p) e l
             = (shr_record_of_loc (Z.pos p) l, e)) \/
  (0 < n /\ shr_m (fst (shr_fexp prec emax (Z.pos p) e l)) = Z.pos p / 2 ^ n /\
            snd (shr_fexp prec emax (Z.pos p) e l) = e + n).
Proof.
  cbv zeta. unfold shr_fexp, shr. simpl Zdigits2.
  destruct (fexp prec emax (Z.pos (digits2_pos p) + e) - e) as [|n|n].
  - left. split; [lia | reflexivity].
  - right. split; [lia|]. simpl fst. simpl snd. split; [|reflexivity].
    rewrite iter_pos_shr_1_div.
    + destruct l as [|[| |]]; reflexivity.
    + destruct l as [|[| |]]; simpl; lia.
  - left. split; [lia | reflexivity].
Qed.

Lemma digits2_pos_upper (p : positive) : Z.pos p < 2 ^ Z.pos (digits2_pos p).
Proof.
  rewrite digits2_pos_size. pose proof (Pos.size_gt p) as H.
  apply Pos2Z.pos_lt_pos in H. rewrite Pos2Z.inj_pow in H. exact H.
Qed.

(** ** Floats: an upper bound through rounding *)

(** What [shr_fexp] leaves of a mantissa below [2 ^ D]: a mantissa that
    fits the format, at an exponent bounded by the one it came with. *)
Lemma shr_fexp_bound (m e : Z) (l : location) (D : Z) :
  0 <= m < 2 ^ D -> 0 <= D ->
  0 <= shr_m (fst (shr_fexp prec emax m e l)) < 2 ^ 53 /\
  snd (shr_fexp prec emax m e l) <= Z.max e (Z.max (D + e - 53) (-1074)).
Proof.
  intros (Hm & Hlt) HD. destruct m as [|p|p]; [| |lia].
  - unfold shr_fexp, shr. simpl Zdigits2.
    destruct (fexp prec emax (0 + e) - e) as [|n|n] eqn:En; simpl fst; simpl snd.
    + split; [|lia]. destruct l as [|[| |]]; simpl; lia.
    + rewrite iter_pos_shr_1_div by (destruct l as [|[| |]]; simpl; lia).
      replace (shr_m (shr_record_of_loc 0 l)) with 0
        by (destruct l as [|[| |]]; reflexivity).
      rewrite Z.div_0_l by (apply Z.pow_nonzero; lia).
      split; [lia|]. unfold fexp, emin, prec, emax in En. lia.
    + split; [|lia]. destruct l as [|[| |]]; simpl; lia.
  - pose proof (digits2_pos_lower p) as Hlo.
    pose proof (digits2_pos_upper p) as Hup.
    set (d := Z.pos (digits2_pos p)) in *.
    assert (Hd : d <= D).
    { assert (H : 2 ^ (d - 1) < 2 ^ D) by lia.
      apply Z.pow_lt_mono_r_iff in H; lia. }
    destruct (shr_fexp_cases p e l) as [(Hn & ->) | (Hn & Hshift & ->)];
      fold d in Hn; simpl fst; simpl snd.
    + unfold fexp, emin, prec, emax in Hn.
      split; [|lia].
      replace (shr_m (shr_record_of_loc (Z.pos p) l)) with (Z.pos p)
        by (destruct l as [|[| |]]; reflexivity).
      split; [lia|].
      assert (H : 2 ^ d <= 2 ^ 53) by (apply Z.pow_le_mono_r; lia). lia.
    + rewrite Hshift. fold d. fold d in Hshift.
      unfold fexp, emin, prec, emax in *.
      set (n := Z.max (d + e - 53) (3 - 1024 - 53) - e) in *.
      split; [split|lia].
      * apply Z.div_pos; [lia | apply Z.pow_pos_nonneg; lia].
      * apply Z.div_lt_upper_bound; [apply Z.pow_pos_nonneg; lia|].
        rewrite <- Z.pow_add_r by lia.
        destruct (Z_le_gt_dec d (n + 53)) as [Hle | Hgt]; [|lia].
        assert (H : 2 ^ d <= 2 ^ (n + 53)) by (apply Z.pow_le_mono_r; lia).
        lia.
Qed.

Lemma round_nearest_even_le (m : Z) (l : location) :
  round_nearest_even m l <= m + 1.
Proof. destruct l as [|[| |]]; simpl; try lia. destruct (Z.even m); lia. Qed.

(** Rounding a mantissa below [2 ^ D] at exponent [e]: the result fits
    the format, and its exponent is at most one above the larger of [e],
    [D + e - 53] and the least exponent of the format. *)
Lemma binary_round_aux_bound (s : bool) (m e : Z) (l : location) (D E : Z) :
  0 <= m < 2 ^ D -> 0 <= D ->
  Z.max e (Z.max (D + e - 53) (-1074)) <= E ->
  match binary_round_aux prec emax s m e l with
  | S754_finite _ m' e' => Z.pos m' < 2 ^ 53 /\ e' <= E + 1
  | S754_infinity _ => emax - prec <= E
  | _ => True
  end.
Proof.
  intros Hm HD HE. unfold binary_round_aux.
  pose proof (shr_fexp_bound m e l D Hm HD) as (H1 & H1e).
  destruct (shr_fexp prec emax m e l) as [mrs' e'] eqn:E1.
  simpl fst in H1. simpl snd in H1e.
  set (m1 := round_nearest_even (shr_m mrs') (loc_of_shr_record mrs')).
  assert (Hm1 : 0 <= m1 < 2 ^ 54).
  { pose proof (round_nearest_even_nonneg (shr_m mrs') (loc_of_shr_record mrs')
                  ltac:(lia)).
    pose proof (round_nearest_even_le (shr_m mrs') (loc_of_shr_record mrs')).
    fold m1 in H, H0. change (2 ^ 54) with (2 * 2 ^ 53). lia. }
  pose proof (shr_fexp_bound m1 e' loc_Exact 54 Hm1 ltac:(lia)) as (H2 & H2e).
  destruct (shr_fexp prec emax m1 e' loc_Exact) as [mrs'' e''] eqn:E2.
  simpl fst in H2. simpl snd in H2e.
  destruct (shr_m mrs'') as [|p|p]; [exact I | | exact I].
  destruct (e'' <=? emax - prec) eqn:Ee.
  - split; lia.
  - apply Z.leb_gt in Ee. lia.
Qed.

Lemma fdiv_nonneg (x : float) (m : positive) (e : Z) :
  nonneg x -> nonneg (fdiv x (S754_finite false m e)).
Proof.
  intros Hx. destruct x as [s|s| |s mx ex]; try destruct s; try contradiction;
    try exact I.
  unfold fdiv, SFdiv.
  destruct (SFdiv_core_binary prec emax (Z.pos mx) ex (Z.pos m) e)
    as [[mz ez] lz] eqn:E.
  assert (Hmz : 0 <= mz).
  { unfold SFdiv_core_binary in E.
    set (s := ex - e - _) in E.
    set (m' := match s with Z.pos _ => Z.shiftl (Z.pos mx) s | 0 => Z.pos mx | _ => 0 end) in E.
    assert (Hm' : 0 <= m').
    { unfold m'. destruct s; try lia. apply Z.shiftl_nonneg. lia. }
    pose proof (Z.div_pos m' (Z.pos m) Hm' ltac:(lia)) as Hq.
    unfold Z.div in Hq.
    destruct (Z.div_eucl m' (Z.pos m)) as [q r]. simpl in Hq.
    injection E as <- _ _. exact Hq. }
  pose proof (binary_round_aux_signed false mz ez lz Hmz) as Hs.
  simpl xorb.
  destruct (binary_round_aux prec emax false mz ez lz) as [s|s| |s m1 e1];
    simpl in Hs; subst; try exact I; contradiction.
Qed.

(** [time.sleep] on lengths around its limits: [0.1], [-0.0], the least
    negative number, [-1e-9], the two neighbours [-9223372036.854776] and
    [-9223372036.854778] on either side of [-2 ^ 63] nanoseconds, the
    infinities, NaN, and [9223372036.854776]. *)
Example sleep_lengths :
  sleep f0_1 = Ok tt /\
  sleep (S754_zero true) = Ok tt /\
  sleep (S754_finite true 1 (-1074)) = Raise ValueError /\
  sleep (float_lit (-4835703278458517) (-82)) = Raise ValueError /\
  sleep (float_lit (-4835703278458517) (-19)) = Raise ValueError /\
  sleep (float_lit (-4835703278458518) (-19)) = Raise OverflowError /\
  sleep (S754_infinity true) = Raise OverflowError /\
  sleep (S754_infinity false) = Raise OverflowError /\
  sleep S754_nan = Raise ValueError /\
  sleep (float_lit 4835703278458517 (-19)) = Raise ValueError.
Proof. vm_compute. repeat split; reflexivity. Qed.

Lemma fdiv_mantissa (x : float) (m : positive) (e : Z) (s' : bool)
    (m' : positive) (e' : Z) :
  fdiv x (S754_finite false m e) = S754_finite s' m' e' -> Z.pos m' < 2 ^ 53.
Proof.
  destruct x as [s|s| |s mx ex]; try discriminate.
  unfold fdiv, SFdiv.
  destruct (SFdiv_core_binary prec emax (Z.pos mx) ex (Z.pos m) e)
    as [[mz ez] lz] eqn:E.
  assert (Hmz : 0 <= mz).
  { unfold SFdiv_core_binary in E.
    set (d := ex - e - _) in E.
    set (q := match d with Z.pos _ => Z.shiftl (Z.pos mx) d | 0 => Z.pos mx | _ => 0 end) in E.
    assert (Hq : 0 <= q).
    { unfold q. destruct d; try lia. apply Z.shiftl_nonneg. lia. }
    pose proof (Z.div_pos q (Z.pos m) Hq ltac:(lia)) as Hdiv.
    unfold Z.div in Hdiv.
    destruct (Z.div_eucl q (Z.pos m)) as [q' r]. simpl in Hdiv.
    injection E as <- _ _. exact Hdiv. }
  intros H.
  assert (Hd : exists D, 0 <= D /\ mz < 2 ^ D).
  { destruct mz as [|p|p]; [exists 0; split; [lia | reflexivity] | | lia].
    exists (Z.pos (digits2_pos p)). split; [lia | apply digits2_pos_upper]. }
  destruct Hd as (D & HD & Hlt).
  pose proof (binary_round_aux_bound (xorb s false) mz ez lz D
                (Z.max ez (Z.max (D + ez - 53) (-1074)))
                (conj Hmz Hlt) HD (Z.le_refl _)) as Hb.
  rewrite H in Hb. apply Hb.
Qed.

(** The pause [mine_block] takes is accepted whenever the time to mine
    is not negative and comes out of a rounding: at most 0.1 second, far
    from [2 ^ 63] nanoseconds. *)
Lemma sleep_fmin_rounded (t : float) :
  nonneg t ->
  (forall m e, t = S754_finite false m e -> Z.pos m < 2 ^ 53) ->
  sleep (fmin t f0_1) = Ok tt.
Proof.
  intros Ht Hm. unfold fmin. destruct (flt f0_1 t) eqn:E.
  - vm_compute. reflexivity.
  - destruct t as [s|s| |s m e]; try contradiction.
    + destruct s; vm_compute; reflexivity.
    + destruct s; [contradiction | discriminate E].
    + destruct s; [contradiction|].
      specialize (Hm m e eq_refl).
      assert (He : e <= -56).
      { change f0_1 with (S754_finite false 7205759403792794 (-56)) in E.
        unfold flt, SFltb, SFcompare in E.
        destruct (Z.compare_spec (-56) e) as [Heq | Hlt | Hgt];
          [lia | discriminate E | lia]. }
      unfold sleep. cbn [is_nan].
      change f1e9 with (S754_finite false 8388608000000000 (-23)).
      unfold fmul, SFmul. cbn [xorb]. cbv zeta.
      assert (Hprod : 0 <= Z.pos (m * 8388608000000000) < 2 ^ 106).
      { rewrite Pos2Z.inj_mul. change (2 ^ 106) with (2 ^ 53 * 2 ^ 53).
        change (2 ^ 53) with 9007199254740992 in *. nia. }
      pose proof (binary_round_aux_bound false (Z.pos (m * 8388608000000000))
                    (e + -23) loc_Exact 106 (-26) Hprod ltac:(lia) ltac:(lia))
        as Hb.
      pose proof (binary_round_aux_signed false (Z.pos (m * 8388608000000000))
                    (e + -23) loc_Exact ltac:(lia)) as Hs.
      destruct (binary_round_aux prec emax false (Z.pos (m * 8388608000000000))
                  (e + -23) loc_Exact) as [s'|s'| |s' m' e'];
        cbv beta iota in Hb; unfold signed in Hs; try contradiction; subst s'.
      * vm_compute. reflexivity.
      * destruct Hb as (_ & He').
        change min_ns with (S754_finite true 4503599627370496 11).
        change max_ns with (S754_finite false 4503599627370496 11).
        unfold flt, feq, SFltb, SFeqb, SFcompare, f0.
        destruct (Z.compare_spec 11 e') as [Heq | Hlt | Hgt]; try lia.
        destruct (Z.compare_spec e' 11) as [Heq | Hlt | Hgt']; try lia.
        reflexivity.
Qed.

(** A miner whose rate per second is a positive finite number always
    returns its block. *)
Lemma mine_block_positive_rate (self : MiningSimulator) (tip : Block)
    (d : Draw) (c : Clock) (m : positive) (e : Z) :
  fdiv (hashrate self) f60 = S754_finite false m e ->
  fle f0 (expo d) = true ->
  mine_block self (height tip + 1) (hash tip) 16 d c = Ok (mined self tip d c).
Proof.
  intros Hrate Hexpo. unfold mine_block, expovariate, truediv.
  rewrite Hrate. simpl is_zero. cbv iota. simpl bind.
  rewrite sleep_fmin_rounded.
  - reflexivity.
  - apply fdiv_nonneg, fle_f0_nonneg, Hexpo.
  - intros m' e' H. apply (fdiv_mantissa _ _ _ _ _ _ H).
Qed.

Arguments SHA256.hexdigest : simpl never.
Arguments mined : simpl never.
Arguments str : simpl never.

(** ** The two extremes of the attacker's hashrate *)

Lemma init_honest_miners (cfg : SimulationConfig) (i : nat) :
  (i < 3)%nat ->
  exists m, index (honest_miners (__init__ cfg)) i = Ok m /\
            hashrate m = fdiv (honest_hashrate cfg) f3 /\
            miner_id m <> ATTACKER.
Proof.
  intros Hi. destruct i as [|[|[|i]]]; [| | |lia];
    (eexists; split; [reflexivity|]; split; [reflexivity|]); vm_compute; discriminate.
Qed.

Section ZeroHashrate.
Variable args : Args.t.
Hypothesis Hzero : is_zero (Args.attacker_hashrate args) = true.
Let cfg := main_config args.

Lemma zero_honest_rate :
  exists m e, fdiv (fdiv (honest_hashrate cfg) f3) f60 = S754_finite false m e.
Proof.
  unfold cfg, main_config. simpl honest_hashrate.
  destruct (Args.attacker_hashrate args) as [s|s| |s m e]; try discriminate.
  destruct s; vm_compute; eauto.
Qed.

Lemma zero_round (self : SelfishMiningAttack) (d : Draw) (c : Clock) :
  level cfg self -> draw_ok d ->
  exists self',
    round_body self d c = Ok self' /\ level cfg self' /\
    len (public_chain self') = len (public_chain self) + 1 /\
    honest_blocks_mined self' = honest_blocks_mined self + 1.
Proof.
  intros (Hcfg & Hminers & Hatt & Hne & Hre & Ham) (Hr0 & _ & Hch & Hexpo & _).
  unfold round_body. rewrite Hcfg.
  assert (Hflt : flt (random_value d) (attacker_hashrate cfg) = false).
  { unfold cfg, main_config. simpl attacker_hashrate.
    destruct (Args.attacker_hashrate args) as [s|s| |s m e]; try discriminate.
    apply flt_nonneg_zero, fle_f0_nonneg, Hr0. }
  rewrite Hflt.
  destruct (init_honest_miners cfg (choice d) Hch) as (m & Hm & Hrate & _).
  destruct (last_item_Ok (public_chain self) Hne) as (tip & Htip).
  destruct zero_honest_rate as (mm & e & Hrate60).
  set (s1 := broadcast self (mined m tip d c)).
  assert (Hlen : len (attacker_chain s1) <= len (public_chain s1)).
  { unfold s1. simpl. rewrite Hatt, len_app_one. lia. }
  rewrite (honest_round_caught_up self d c m tip (mined m tip d c)); fold s1;
    [ | rewrite Hminers; exact Hm | exact Htip
      | apply (mine_block_positive_rate m tip d c mm e);
        [rewrite Hrate; exact Hrate60 | exact Hexpo]
      | exact Hlen ].
  exists (abandoned s1). split; [reflexivity|]. split; [|split].
  - unfold level, s1. simpl. repeat split; auto.
    intros Habs. apply app_eq_nil in Habs. destruct Habs as (_ & Habs). discriminate.
  - unfold s1. simpl. apply len_app_one.
  - reflexivity.
Qed.

Lemma zero_rounds (rng : Z -> Draw) (clock : Z -> Clock) (rounds : list Z) :
  (forall round, draw_ok (rng round)) ->
  forall self, level cfg self ->
  exists self',
    run_rounds rng clock rounds self = Ok self' /\ level cfg self' /\
    len (public_chain self') = len (public_chain self) + len rounds /\
    honest_blocks_mined self' = honest_blocks_mined self + len rounds.
Proof.
  intros Hrng. induction rounds as [|r rest IH]; intros self Hlevel.
  - exists self. unfold len. simpl.
    split; [reflexivity|]. split; [exact Hlevel|]. split; lia.
  - destruct (zero_round self (rng r) (clock r) Hlevel (Hrng r))
      as (s1 & Hstep & Hlevel1 & Hlen1 & Hhm1).
    destruct (IH s1 Hlevel1) as (s2 & Hrun & Hlevel2 & Hlen2 & Hhm2).
    exists s2. simpl run_rounds. rewrite Hstep. simpl bind.
    split; [exact Hrun|]. split; [exact Hlevel2|].
    unfold len in *. simpl length. lia.
Qed.
End ZeroHashrate.

(** C8: with attacker hashrate 0 and a round count that is not negative,
    the loop completes for all draws the [random] module can give, and
    leaves [reorgs = 0] and a public chain of [total_blocks + 1] blocks;
    the attacker has mined nothing and every round was an honest one. *)
Theorem zero_hashrate_run (args : Args.t) (rng : Z -> Draw) (clock : Z -> Clock) :
  is_zero (Args.attacker_hashrate args) = true ->
  0 <= Args.blocks args ->
  (forall round, draw_ok (rng round)) ->
  exists self,
    simulation_loop (__init__ (main_config args)) rng clock = Ok self /\
    reorgs self = 0 /\
    len (public_chain self) = Args.blocks args + 1 /\
    attacker_blocks_mined self = 0 /\
    honest_blocks_mined self = Args.blocks args.
Proof.
  intros Hzero Hblocks Hrng. unfold simulation_loop.
  destruct (zero_rounds args Hzero rng clock
              (range 1 (total_blocks (config (initialize_genesis (__init__ (main_config args)))) + 1))
              Hrng (initialize_genesis (__init__ (main_config args))))
    as (self & Hrun & Hlevel & Hlen & Hhm).
  - unfold level. simpl. repeat split; auto. discriminate.
  - exists self. split; [exact Hrun|].
    destruct Hlevel as (_ & _ & _ & _ & Hre & Ham).
    unfold len in Hlen, Hhm. rewrite length_range in Hlen, Hhm.
    change (total_blocks (config (initialize_genesis (__init__ (main_config args)))))
      with (Args.blocks args) in Hlen, Hhm.
    change (Z.of_nat (length (public_chain (initialize_genesis (__init__ (main_config args))))))
      with 1 in Hlen.
    change (honest_blocks_mined (initialize_genesis (__init__ (main_config args))))
      with 0 in Hhm.
    unfold len. repeat split; auto; lia.
Qed.

Lemma draws_of_ok (attacker_rounds : list Z) (round : Z) :
  draw_ok (draws_of attacker_rounds round).
Proof.
  unfold draw_ok, draws_of.
  cbn [random_value choice expo randint].
  pose proof (Z.mod_pos_bound round 3 ltac:(lia)).
  pose proof (Z.mod_pos_bound round 1000 ltac:(lia)).
  change (2 ^ 32) with 4294967296.
  destruct (existsb (Z.eqb round) attacker_rounds);
    (split; [reflexivity|]; split; [reflexivity|]; split; [lia|];
     split; [reflexivity|]; lia).
Qed.

Lemma zero_hashrate_run_witness :
  is_zero (Args.attacker_hashrate (args_of f0 5)) = true /\
  0 <= Args.blocks (args_of f0 5) /\
  (forall round, draw_ok (draws_of [] round)) /\
  exists self,
    simulation_loop (__init__ (main_config (args_of f0 5))) (draws_of []) demo_clock
      = Ok self /\
    reorgs self = 0 /\
    len (public_chain self) = Args.blocks (args_of f0 5) + 1 /\
    attacker_blocks_mined self = 0 /\
    honest_blocks_mined self = Args.blocks (args_of f0 5).
Proof.
  split; [reflexivity|]. split; [simpl; lia|]. split; [apply draws_of_ok|].
  apply (zero_hashrate_run (args_of f0 5) (draws_of []) demo_clock).
  - reflexivity.
  - simpl. lia.
  - apply draws_of_ok.
Defined.

Lemma binary_normalize_not_nan (n e : Z) (s : bool) :
  binary_normalize prec emax n e s <> S754_nan.
Proof.
  unfold binary_normalize, binary_round.
  destruct n as [|p|p]; [discriminate| |];
    destruct (shl_align p e (fexp prec emax (Z.pos (digits2_pos p) + e))) as [mz ez];
    intros Hnan;
    match goal with
    | H : binary_round_aux prec emax ?sx (Z.pos mz) ez loc_Exact = S754_nan |- _ =>
        pose proof (binary_round_aux_signed sx (Z.pos mz) ez loc_Exact ltac:(lia)) as Hs;
        rewrite H in Hs; exact Hs
    end.
Qed.

(** With hashrate zero the expected reward is zero, and the percentage of
    the Profit/Loss line stops the report. *)
Lemma zero_hashrate_report_raises (self : SelfishMiningAttack) :
  is_zero (attacker_hashrate (config self)) = true ->
  exists e, _print_results self = Raise e.
Proof.
  intros Hzero. unfold _print_results.
  destruct (float_of_int (total_blocks (config self))) as [total|e] eqn:Et;
    [|exists e; reflexivity].
  unfold bind at 1.
  destruct (float_of_int (attacker_blocks (public_chain self))) as [actual|e];
    [|exists e; reflexivity].
  unfold bind at 1.
  assert (Hexp : is_zero (fmul (attacker_hashrate (config self)) total) = true).
  { unfold float_of_int in Et.
    pose proof (binary_normalize_not_nan (total_blocks (config self)) 0 false) as Hnn.
    destruct (binary_normalize prec emax (total_blocks (config self)) 0 false)
      as [s1|s1| |s1 m1 e1]; try discriminate Et; try contradiction;
      injection Et as <-;
      destruct (attacker_hashrate (config self)) as [s|s| |s m e];
      try discriminate Hzero; reflexivity. }
  unfold truediv. rewrite Hexp. exists ZeroDivisionError. reflexivity.
Qed.

Lemma full_rate : exists m e, fdiv f1 f60 = S754_finite false m e.
Proof. vm_compute. eauto. Qed.

Section FullHashrate.
Variable args : Args.t.
Hypothesis Hfull : Args.attacker_hashrate args = f1.
Let cfg := main_config args.

Lemma full_round (k : Z) (self : SelfishMiningAttack) (d : Draw) (c : Clock) :
  withholding cfg k self -> draw_ok d ->
  exists self',
    round_body self d c = Ok self' /\ withholding cfg (k + 1) self'.
Proof.
  intros (Hcfg & Hminer & Hpub & Hne & Hlen & Ham & Hhm & Hhmain & Hre & Hamain)
         (_ & Hr1 & _ & Hexpo & _).
  unfold round_body. rewrite Hcfg.
  change (attacker_hashrate cfg) with (Args.attacker_hashrate args).
  rewrite Hfull, Hr1.
  destruct (last_item_Ok (attacker_chain self) Hne) as (tip & Htip).
  unfold _attacker_mines_block. rewrite Htip. unfold bind at 1.
  destruct full_rate as (m & e & Hrate).
  rewrite (mine_block_positive_rate (attacker_miner self) tip d c m e).
  - unfold bind. cbv zeta.
    eexists. split; [reflexivity|].
    unfold withholding. simpl. rewrite len_app_one.
    repeat split; auto; try lia.
    intros Habs. apply app_eq_nil in Habs. destruct Habs as (_ & Habs). discriminate.
  - rewrite Hminer. unfold cfg. simpl hashrate. rewrite Hfull. exact Hrate.
  - exact Hexpo.
Qed.

Lemma full_rounds (rng : Z -> Draw) (clock : Z -> Clock) (rounds : list Z) :
  (forall round, draw_ok (rng round)) ->
  forall k self, withholding cfg k self ->
  exists self',
    run_rounds rng clock rounds self = Ok self' /\
    withholding cfg (k + len rounds) self'.
Proof.
  intros Hrng. induction rounds as [|r rest IH]; intros k self Hw.
  - exists self. split; [reflexivity|].
    unfold len. simpl length. replace (k + Z.of_nat 0) with k by lia. exact Hw.
  - destruct (full_round k self (rng r) (clock r) Hw (Hrng r)) as (s1 & Hstep & Hw1).
    destruct (IH (k + 1) s1 Hw1) as (s2 & Hrun & Hw2).
    exists s2. simpl run_rounds. rewrite Hstep. unfold bind.
    split; [exact Hrun|].
    replace (k + len (r :: rest)) with (k + 1 + len rest); [exact Hw2|].
    unfold len. simpl length. lia.
Qed.
End FullHashrate.

(** C9: with attacker hashrate 1.0, for all draws the [random] module can
    give, the first [k] rounds all complete as attacker rounds: the
    private chain has [k + 1] blocks, the public chain is still the
    genesis block alone, no honest block was mined and the release routine
    never ran ([honest_blocks_in_main_chain], [reorgs] and
    [attacker_blocks_in_main_chain] are 0), and a report counts no
    attacker block in the public chain.  With [k = total_blocks] this is
    the state the loop ends in. *)
Theorem full_hashrate_run (args : Args.t) (rng : Z -> Draw) (clock : Z -> Clock)
    (k : Z) :
  Args.attacker_hashrate args = f1 ->
  (forall round, draw_ok (rng round)) ->
  0 <= k ->
  exists self,
    run_rounds rng clock (range 1 (k + 1))
      (initialize_genesis (__init__ (main_config args))) = Ok self /\
    (k = Args.blocks args ->
     simulation_loop (__init__ (main_config args)) rng clock = Ok self) /\
    len (attacker_chain self) = k + 1 /\
    public_chain self = [genesis] /\
    attacker_blocks_mined self = k /\
    honest_blocks_mined self = 0 /\
    honest_blocks_in_main_chain self = 0 /\
    reorgs self = 0 /\
    attacker_blocks_in_main_chain self = 0 /\
    mined_by ATTACKER (public_chain self) = 0 /\
    forall report,
      _print_results self = Ok report -> actual_attacker_reward report = 0.
Proof.
  intros Hfull Hrng Hk.
  destruct (full_rounds args Hfull rng clock (range 1 (k + 1)) Hrng 0
              (initialize_genesis (__init__ (main_config args))))
    as (self & Hrun & Hw).
  - unfold withholding. simpl. repeat split; auto. discriminate.
  - exists self. split; [exact Hrun|].
    destruct Hw as (Hcfg & Hminer & Hpub & Hne & Hlen & Ham & Hhm & Hhmain & Hre & Hamain).
    unfold len in Hlen, Ham. rewrite length_range in Hlen, Ham.
    split.
    { intros ->. unfold simulation_loop. exact Hrun. }
    unfold len. rewrite Hpub.
    split; [lia|]. split; [reflexivity|]. split; [lia|].
    split; [exact Hhm|]. split; [exact Hhmain|]. split; [exact Hre|].
    split; [exact Hamain|]. split; [reflexivity|].
    intros report Hrep. unfold _print_results in Hrep.
    inv_bind Hrep. inv_bind Hrep. inv_bind Hrep.
    injection Hrep as <-. simpl. rewrite Hpub. reflexivity.
Qed.

Lemma full_hashrate_run_witness :
  Args.attacker_hashrate (args_of f1 5) = f1 /\
  (forall round, draw_ok (draws_of [1; 2; 3; 4; 5] round)) /\
  0 <= 5 /\
  exists self,
    run_rounds (draws_of [1; 2; 3; 4; 5]) demo_clock (range 1 (5 + 1))
      (initialize_genesis (__init__ (main_config (args_of f1 5)))) = Ok self /\
    (5 = Args.blocks (args_of f1 5) ->
     simulation_loop (__init__ (main_config (args_of f1 5)))
       (draws_of [1; 2; 3; 4; 5]) demo_clock = Ok self) /\
    len (attacker_chain self) = 5 + 1 /\
    public_chain self = [genesis] /\
    attacker_blocks_mined self = 5 /\
    honest_blocks_mined self = 0 /\
    honest_blocks_in_main_chain self = 0 /\
    reorgs self = 0 /\
    attacker_blocks_in_main_chain self = 0 /\
    mined_by ATTACKER (public_chain self) = 0 /\
    forall report,
      _print_results self = Ok report -> actual_attacker_reward report = 0.
Proof.
  split; [reflexivity|]. split; [apply draws_of_ok|]. split; [lia|].
  apply (full_hashrate_run (args_of f1 5) (draws_of [1; 2; 3; 4; 5]) demo_clock 5).
  - reflexivity.
  - apply draws_of_ok.
  - lia.
Defined.

(** ** The forced sequence ATTACKER, ATTACKER, HONEST, HONEST, HONEST *)

(** C1: in the five-round run whose actors are ATTACKER, ATTACKER, HONEST,
    HONEST, HONEST, the code never reorganises.  After round 3 the public
    chain has 2 blocks, the private chain 3, and no release has run; the
    release of round 4 meets a tie and abandons the private chain; the
    loop ends with a public chain of 4 honest blocks, [reorgs = 0] and
    [attacker_blocks_in_main_chain = 0], and the attacker's two blocks are
    lost. *)
Theorem forced_sequence_never_reorganises :
  let start := initialize_genesis (__init__ demo_config) in
  let G := "GENESIS" in
  let A := "ATTACKER" in
  let H0 := "HONEST_0" in
  let H1 := "HONEST_1" in
  let H2 := "HONEST_2" in
  after (run_rounds demo_rng demo_clock (range 1 3) start)
    = Some ([G], [G; A; A], (2, 0), (0, 0, 0)) /\
  after (run_rounds demo_rng demo_clock (range 1 4) start)
    = Some ([G; H0], [G; A; A], (2, 1), (0, 0, 0)) /\
  after (run_rounds demo_rng demo_clock (range 1 5) start)
    = Some ([G; H0; H1], [G; H0; H1], (2, 2), (0, 3, 0)) /\
  after (simulation_loop (__init__ demo_config) demo_rng demo_clock)
    = Some ([G; H0; H1; H2], [G; H0; H1; H2], (2, 3), (0, 4, 0)).
Proof. vm_compute. repeat split; reflexivity. Qed.

(** ** The report *)

Lemma honest_ids (cfg : SimulationConfig) (i : nat) (m : MiningSimulator) :
  index (honest_miners (__init__ cfg)) i = Ok m -> miner_id m <> ATTACKER.
Proof.
  destruct i as [|[|[|i]]]; intros H.
  1-3: injection H as <-; vm_compute; discriminate.
  unfold index in H. simpl in H. destruct i; discriminate.
Qed.

Lemma mined_by_app (who : string) (l1 l2 : list Block) :
  mined_by who (l1 ++ l2) = mined_by who l1 + mined_by who l2.
Proof. induction l1 as [|b l1 IH]; simpl; [reflexivity | rewrite IH; lia]. Qed.

(** No block of the attacker ever enters the public chain. *)
Lemma reachable_public_honest (cfg : SimulationConfig) (n : nat)
    (self : SelfishMiningAttack) :
  reachable cfg n self -> mined_by ATTACKER (public_chain self) = 0.
Proof.
  induction 1 as [|n self self' d c Hreach IH Hstep].
  - reflexivity.
  - destruct (reachable_config cfg n self Hreach) as (_ & _ & Hminers).
    unfold round_body in Hstep.
    destruct (flt (random_value d) (attacker_hashrate (config self))).
    + apply _attacker_mines_block_Ok in Hstep. destruct Hstep as (tip & _ & ->).
      exact IH.
    + apply _honest_miner_mines_block_Ok in Hstep.
      destruct Hstep as (m & tip & Hm & _ & Hcases).
      rewrite Hminers in Hm. apply honest_ids in Hm.
      assert (Hpub : mined_by ATTACKER (public_chain self ++ [mined m tip d c]) = 0).
      { rewrite mined_by_app, IH. simpl.
        destruct (string_dec (miner_id m) ATTACKER); [contradiction | reflexivity]. }
      destruct Hcases as [(_ & ->) | (_ & ->)]; exact Hpub.
Qed.

(** What a report holds, for any simulator. *)
Lemma _print_results_Ok (self : SelfishMiningAttack) (report : Report) :
  _print_results self = Ok report ->
  exists total actual,
    float_of_int (total_blocks (config self)) = Ok total /\
    float_of_int (mined_by ATTACKER (public_chain self)) = Ok actual /\
    expected_attacker_reward report = fmul (attacker_hashrate (config self)) total /\
    actual_attacker_reward report = mined_by ATTACKER (public_chain self) /\
    profit report = fsub actual (expected_attacker_reward report) /\
    profitable report = flt f0 (profit report) /\
    is_zero (expected_attacker_reward report) = false.
Proof.
  unfold _print_results. rewrite attacker_blocks_mined_by. intros H.
  inv_bind H. rename x into total. inv_bind H. rename x into actual.
  inv_bind H. injection H as <-. simpl.
  exists total, actual. repeat split; auto.
  unfold truediv in Hx1.
  destruct (is_zero (fmul (attacker_hashrate (config self)) total));
    [discriminate | reflexivity].
Qed.

(** When a report comes out, for any simulator. *)
Lemma _print_results_run (self : SelfishMiningAttack) (total actual : float) :
  float_of_int (total_blocks (config self)) = Ok total ->
  float_of_int (mined_by ATTACKER (public_chain self)) = Ok actual ->
  is_zero (fmul (attacker_hashrate (config self)) total) = false ->
  _print_results self =
    Ok {| expected_attacker_reward := fmul (attacker_hashrate (config self)) total;
          actual_attacker_reward := mined_by ATTACKER (public_chain self);
          profit := fsub actual (fmul (attacker_hashrate (config self)) total);
          profitable :=
            flt f0 (fsub actual (fmul (attacker_hashrate (config self)) total)) |}.
Proof.
  intros Ht Ha Hnz. unfold _print_results.
  rewrite attacker_blocks_mined_by, Ht, Ha. cbn [bind].
  unfold truediv. rewrite Hnz. reflexivity.
Qed.

(** C10: the report is a function of the configuration and of the
    public chain alone, and [run_simulation] makes it from the simulator
    its loop leaves.  For every simulator, a report holds
    [attacker_hashrate * total_blocks] as the expected reward, the number
    of blocks of the public chain mined by ATTACKER as the actual reward
    and their difference as the profit, and the run is reported
    profitable exactly when that difference is above zero.  The report
    comes out exactly when the round count and the number of attacker
    blocks convert to floats and the expected reward is not zero. *)
Theorem report_statistics (self : SelfishMiningAttack) :
  (forall other,
     config other = config self ->
     public_chain other = public_chain self ->
     _print_results other = _print_results self) /\
  (forall cfg rng clock,
     simulation_loop (__init__ cfg) rng clock = Ok self ->
     run_simulation (__init__ cfg) rng clock =
       (report <- _print_results self ;; Ok (self, report))) /\
  (forall report,
     _print_results self = Ok report ->
     exists total actual,
       float_of_int (total_blocks (config self)) = Ok total /\
       float_of_int (mined_by ATTACKER (public_chain self)) = Ok actual /\
       expected_attacker_reward report = fmul (attacker_hashrate (config self)) total /\
       actual_attacker_reward report = mined_by ATTACKER (public_chain self) /\
       profit report = fsub actual (expected_attacker_reward report) /\
       profitable report = flt f0 (profit report)) /\
  ((exists report, _print_results self = Ok report /\ profitable report = true) <->
   (exists total actual,
       float_of_int (total_blocks (config self)) = Ok total /\
       float_of_int (mined_by ATTACKER (public_chain self)) = Ok actual /\
       is_zero (fmul (attacker_hashrate (config self)) total) = false /\
       flt f0 (fsub actual (fmul (attacker_hashrate (config self)) total)) = true)) /\
  ((exists report, _print_results self = Ok report) <->
   (exists total actual,
       float_of_int (total_blocks (config self)) = Ok total /\
       float_of_int (mined_by ATTACKER (public_chain self)) = Ok actual /\
       is_zero (fmul (attacker_hashrate (config self)) total) = false)).
Proof.
  split; [|split; [|split; [|split; split]]].
  - intros other Hc Hp. unfold _print_results. rewrite Hc, Hp. reflexivity.
  - intros cfg rng clock Hloop. unfold run_simulation. rewrite Hloop. reflexivity.
  - intros report Hrep. apply _print_results_Ok in Hrep.
    destruct Hrep as (total & actual & Ht & Ha & He & Hact & Hp & Hv & _).
    exists total, actual. repeat split; assumption.
  - intros (report & Hrep & Htrue). apply _print_results_Ok in Hrep.
    destruct Hrep as (total & actual & Ht & Ha & He & Hact & Hp & Hv & Hnz).
    exists total, actual. rewrite He in Hnz, Hp.
    repeat split; try assumption. congruence.
  - intros (total & actual & Ht & Ha & Hnz & Hpos).
    eexists. split; [apply (_print_results_run self total actual Ht Ha Hnz)|].
    exact Hpos.
  - intros (report & Hrep). apply _print_results_Ok in Hrep.
    destruct Hrep as (total & actual & Ht & Ha & He & Hact & Hp & Hv & Hnz).
    exists total, actual. rewrite He in Hnz. repeat split; assumption.
  - intros (total & actual & Ht & Ha & Hnz).
    eexists. apply (_print_results_run self total actual Ht Ha Hnz).
Qed.

(** A public chain with two blocks of the attacker at hashrate 0.5.
    With four rounds configured the expected reward is 2: the report
    counts 2 blocks, a profit of zero, and the run is not called
    profitable.  With two rounds configured the expected reward is 1 and
    the run is called profitable. *)
Lemma report_statistics_witness :
  (exists report,
     _print_results (released_state 4) = Ok report /\
     actual_attacker_reward report = 2 /\
     profit report = f0 /\
     profitable report = false) /\
  (exists report,
     _print_results (released_state 2) = Ok report /\
     actual_attacker_reward report = 2 /\
     profit report = f1 /\
     profitable report = true).
Proof.
  split.
  - destruct (_print_results (released_state 4)) as [report|e] eqn:E;
      [|exfalso; vm_compute in E; discriminate E].
    exists report. split; [reflexivity|].
    destruct (report_statistics (released_state 4)) as (_ & _ & H & _).
    destruct (H report E) as (total & actual & Ht & Ha & He & Hact & Hp & Hv).
    vm_compute in Ht, Ha. injection Ht as <-. injection Ha as <-.
    assert (Hprofit : profit report = f0) by (rewrite Hp, He; reflexivity).
    split; [rewrite Hact; reflexivity|].
    split; [exact Hprofit|]. rewrite Hv, Hprofit. reflexivity.
  - destruct (_print_results (released_state 2)) as [report|e] eqn:E;
      [|exfalso; vm_compute in E; discriminate E].
    exists report. split; [reflexivity|].
    destruct (report_statistics (released_state 2)) as (_ & _ & H & _).
    destruct (H report E) as (total & actual & Ht & Ha & He & Hact & Hp & Hv).
    vm_compute in Ht, Ha. injection Ht as <-. injection Ha as <-.
    assert (Hprofit : profit report = f1) by (rewrite Hp, He; reflexivity).
    split; [rewrite Hact; reflexivity|].
    split; [exact Hprofit|]. rewrite Hv, Hprofit. reflexivity.
Defined.

(** ** The timestamp scenario *)

Lemma insert_sorted_shift (t x : Z) (l : list Z) :
  insert_sorted (t + x) (map (Z.add t) l) = map (Z.add t) (insert_sorted x l).
Proof.
  induction l as [|y rest IH]; simpl; [reflexivity|].
  replace (t + x <=? t + y) with (x <=? y).
  - destruct (x <=? y); simpl; [reflexivity | rewrite IH; reflexivity].
  - destruct (x <=? y) eqn:E; symmetry.
    + apply Z.leb_le in E. apply Z.leb_le. lia.
    + apply Z.leb_gt in E. apply Z.leb_gt. lia.
Qed.

Lemma sorted_shift (t : Z) (l : list Z) :
  sorted (map (Z.add t) l) = map (Z.add t) (sorted l).
Proof.
  unfold sorted. induction l as [|x rest IH]; simpl; [reflexivity|].
  rewrite IH. apply insert_sorted_shift.
Qed.

Lemma last_n_map {A B : Type} (f : A -> B) (n : nat) (l : list A) :
  last_n n (map f l) = map f (last_n n l).
Proof. unfold last_n. rewrite length_map, skipn_map. reflexivity. Qed.

Lemma index_map {A B : Type} (f : A -> B) (l : list A) (i : nat) :
  index (map f l) i = x <- index l i ;; Ok (f x).
Proof. unfold index. rewrite nth_error_map. destruct (nth_error l i); reflexivity. Qed.

Lemma last_item_map {A B : Type} (f : A -> B) (l : list A) :
  last_item (map f l) = x <- last_item l ;; Ok (f x).
Proof. unfold last_item. rewrite <- map_rev. destruct (rev l); reflexivity. Qed.

(** Moving the clock moves every protected timestamp by as much. *)
Lemma mtp_protect_shift (t drift : Z) (todo : list Z) :
  forall blocks,
    TimestampManipulationAttack.mtp_protect todo t drift (map (Z.add t) blocks) =
    (r <- TimestampManipulationAttack.mtp_protect todo 0 drift blocks ;;
     Ok (map (Z.add t) r)).
Proof.
  induction todo as [|i rest IH]; intros blocks; simpl; [reflexivity|].
  destruct (i <? 11).
  - cbn [bind].
    replace (t + drift - 1) with (t + (0 + drift - 1)) by lia.
    change (map (Z.add t) blocks ++ [t + (0 + drift - 1)])
      with (map (Z.add t) blocks ++ map (Z.add t) [0 + drift - 1]).
    rewrite <- map_app. apply IH.
  - rewrite last_n_map, sorted_shift, index_map.
    destruct (index (sorted (last_n 11 blocks)) 5) as [median|e]; cbn [bind];
      [|reflexivity].
    replace (t + median + 1) with (t + (median + 1)) by lia.
    change (map (Z.add t) blocks ++ [t + (median + 1)])
      with (map (Z.add t) blocks ++ map (Z.add t) [median + 1]).
    rewrite <- map_app. apply IH.
Qed.

Lemma manipulate_repeat (todo : list Z) (t drift : Z) :
  forall blocks,
    TimestampManipulationAttack.manipulate todo t drift blocks =
    blocks ++ repeat (t + drift - 1) (length todo).
Proof.
  induction todo as [|i rest IH]; intros blocks; simpl.
  - rewrite app_nil_r. reflexivity.
  - rewrite IH, <- app_assoc. reflexivity.
Qed.

Lemma index_repeat_0 {A : Type} (x : A) (n : nat) : index (repeat x (S n)) 0 = Ok x.
Proof. reflexivity. Qed.

Lemma last_item_repeat {A : Type} (x : A) (n : nat) :
  last_item (repeat x (S n)) = Ok x.
Proof. cbn [repeat]. rewrite repeat_cons. apply last_item_app. Qed.

Lemma timewarp_timestamps (current_time : Z) :
  TimestampManipulationAttack.mtp_protect (range 0 100) current_time 60 [] =
  Ok (map (Z.add current_time) (map (fun i => 59 + mtp_offset i) (range 0 100))).
Proof.
  change (@nil Z) with (map (Z.add current_time) []) at 1.
  rewrite mtp_protect_shift.
  replace (TimestampManipulationAttack.mtp_protect (range 0 100) 0 60 [])
    with (Ok (map (fun i => 59 + mtp_offset i) (range 0 100)))
    by (vm_compute; reflexivity).
  reflexivity.
Qed.

(** The scenario completes, with the same values whatever the clock
    reads. *)
Lemma timewarp_run (current_time : Z) :
  TimestampManipulationAttack.run_simulation current_time =
    Ok {| TimestampManipulationAttack.actual_time := 0;
          TimestampManipulationAttack.expected_time := 60000;
          TimestampManipulationAttack.protected_actual_time := 15;
          TimestampManipulationAttack.partially_successful := true |}.
Proof.
  unfold TimestampManipulationAttack.run_simulation. cbv zeta.
  rewrite timewarp_timestamps, manipulate_repeat, app_nil_l.
  replace (length (range 0 100)) with (S 99) by (vm_compute; reflexivity).
  rewrite index_repeat_0, last_item_repeat. cbn [bind].
  rewrite last_item_map, index_map.
  replace (last_item (map (fun i => 59 + mtp_offset i) (range 0 100)))
    with (Ok 74) by (vm_compute; reflexivity).
  replace (index (map (fun i => 59 + mtp_offset i) (range 0 100)) 0)
    with (Ok 59) by (vm_compute; reflexivity).
  cbn [bind].
  replace (current_time + 60 - 1 - (current_time + 60 - 1)) with 0 by lia.
  replace (current_time + 74 - (current_time + 59)) with 15 by lia.
  vm_compute. reflexivity.
Qed.

(** ** Which exceptions a run can raise *)

Lemma raises_builtin_Ok {A : Type} (a : A) : raises_builtin (Ok a).
Proof. intros e H. discriminate. Qed.

Lemma raises_builtin_bind {A B : Type} (m : result A) (k : A -> result B) :
  raises_builtin m -> (forall a, m = Ok a -> raises_builtin (k a)) ->
  raises_builtin (bind m k).
Proof.
  intros Hm Hk e H. destruct m as [a|e']; simpl in H.
  - apply (Hk a eq_refl e H).
  - injection H as <-. apply Hm. reflexivity.
Qed.

Lemma raises_builtin_if {A : Type} (b : bool) (r1 r2 : result A) :
  raises_builtin r1 -> raises_builtin r2 -> raises_builtin (if b then r1 else r2).
Proof. destruct b; auto. Qed.

Lemma truediv_raises (x y : float) : raises_builtin (truediv x y).
Proof.
  unfold truediv. intros e H. destruct (is_zero y); [|discriminate].
  injection H as <-. left. reflexivity.
Qed.

Lemma sleep_raises (secs : float) : raises_builtin (sleep secs).
Proof.
  unfold sleep. intros e H. cbv zeta in H.
  destruct (is_nan secs); [injection H as <-; right; left; reflexivity|].
  destruct (_ || _); [injection H as <-; right; right; right; reflexivity|].
  destruct (_ || _); [injection H as <-; right; left; reflexivity | discriminate H].
Qed.

Lemma index_raises {A : Type} (l : list A) (i : nat) : raises_builtin (index l i).
Proof.
  unfold index. intros e H. destruct (nth_error l i); [discriminate|].
  injection H as <-. right. right. left. reflexivity.
Qed.

Lemma last_item_raises {A : Type} (l : list A) : raises_builtin (last_item l).
Proof.
  unfold last_item. intros e H. destruct (rev l); [|discriminate].
  injection H as <-. right. right. left. reflexivity.
Qed.

Lemma float_of_int_raises (n : Z) : raises_builtin (float_of_int n).
Proof.
  unfold float_of_int. intros e H.
  destruct (binary_normalize prec emax n 0 false); try discriminate.
  injection H as <-. right. right. right. reflexivity.
Qed.

Create HintDb raises.

#[local] Hint Resolve raises_builtin_Ok truediv_raises sleep_raises index_raises
  last_item_raises float_of_int_raises : raises.

Ltac raises :=
  cbv beta zeta;
  repeat first
    [ solve [auto with raises]
    | apply raises_builtin_bind; [|intros ? _; cbv beta zeta]
    | apply raises_builtin_if ].

Lemma mine_block_raises (self : MiningSimulator) (h : Z) (p : string) (dif : Z)
    (d : Draw) (c : Clock) :
  raises_builtin (mine_block self h p dif d c).
Proof. unfold mine_block, expovariate. raises. Qed.

Lemma _find_fork_point_raises (self : SelfishMiningAttack) :
  raises_builtin (_find_fork_point self).
Proof.
  destruct (_find_fork_point_first self) as (k & Hk & _). rewrite Hk.
  apply raises_builtin_Ok.
Qed.

#[local] Hint Resolve mine_block_raises _find_fork_point_raises : raises.

Lemma _attacker_releases_chain_raises (self : SelfishMiningAttack) :
  raises_builtin (_attacker_releases_chain self).
Proof. unfold _attacker_releases_chain. raises. Qed.

#[local] Hint Resolve _attacker_releases_chain_raises : raises.

Lemma round_body_raises (self : SelfishMiningAttack) (d : Draw) (c : Clock) :
  raises_builtin (round_body self d c).
Proof.
  unfold round_body, _attacker_mines_block. cbv zeta.
  apply raises_builtin_if; [raises|].
  rewrite _honest_miner_mines_block_eq. raises.
Qed.

Lemma run_rounds_raises (rng : Z -> Draw) (clock : Z -> Clock) (rounds : list Z) :
  forall self, raises_builtin (run_rounds rng clock rounds self).
Proof.
  induction rounds as [|r rest IH]; intros self; simpl.
  - apply raises_builtin_Ok.
  - apply raises_builtin_bind; [apply round_body_raises | intros s _; apply IH].
Qed.

Lemma long_range_raises (config : SimulationConfig) :
  raises_builtin (LongRangeAttack.run_simulation config).
Proof. unfold LongRangeAttack.run_simulation. raises. Qed.

Lemma main_raises (args : Args.t) (rng : Z -> Draw) (clock : Z -> Clock)
    (now : Z) :
  raises_builtin (main args rng clock now).
Proof.
  unfold main. cbv zeta.
  apply raises_builtin_bind; [|intros selfish _].
  { apply raises_builtin_if; [|apply raises_builtin_Ok].
    apply raises_builtin_bind; [|intros; apply raises_builtin_Ok].
    unfold run_simulation, simulation_loop, _print_results. cbv zeta.
    apply raises_builtin_bind; [apply run_rounds_raises | intros s _].
    raises. }
  apply raises_builtin_bind; [|intros doublespend _].
  { apply raises_builtin_if; apply raises_builtin_Ok. }
  apply raises_builtin_bind; [|intros longrange _].
  { apply raises_builtin_if; [|apply raises_builtin_Ok].
    apply raises_builtin_bind; [apply long_range_raises |].
    intros; apply raises_builtin_Ok. }
  apply raises_builtin_bind; [|intros; apply raises_builtin_Ok].
  apply raises_builtin_if; [|apply raises_builtin_Ok].
  rewrite timewarp_run. apply raises_builtin_Ok.
Qed.

(** A hashrate that is zero makes the expected reward zero. *)
Lemma expected_reward_zero (rate total : float) (n : Z) :
  float_of_int n = Ok total ->
  is_zero rate = true ->
  is_zero (fmul rate total) = true.
Proof.
  unfold float_of_int. intros Ht Hzero.
  pose proof (binary_normalize_not_nan n 0 false) as Hnn.
  destruct (binary_normalize prec emax n 0 false) as [s1|s1| |s1 m1 e1];
    try discriminate Ht; try contradiction;
    injection Ht as <-;
    destruct rate as [s|s| |s m e]; try discriminate Hzero; reflexivity.
Qed.

(** Once the selfish-mining report is out, the scenarios that follow it
    complete: the long-range scenario divides by the hashrate, which the
    report has divided by already. *)
Lemma main_after_report (args : Args.t) (rng : Z -> Draw) (clock : Z -> Clock)
    (now : Z) (self : SelfishMiningAttack) (report : Report) :
  member (Args.attack args) ["selfish"; "all"] = true ->
  simulation_loop (__init__ (main_config args)) rng clock = Ok self ->
  _print_results self = Ok report ->
  exists outcome,
    main args rng clock now = Ok outcome /\
    selfish outcome = Some (self, report).
Proof.
  intros Hsel Hloop Hrep. unfold main, run_simulation. cbv zeta.
  rewrite Hsel, Hloop. cbn [bind]. rewrite Hrep. cbn [bind].
  assert (Hrate : is_zero (Args.attacker_hashrate args) = false).
  { apply simulation_loop_reachable in Hloop.
    destruct (reachable_config _ _ self Hloop) as (Hcfg & _ & _).
    apply _print_results_Ok in Hrep.
    destruct Hrep as (total & actual & Ht & _ & He & _ & _ & _ & Hnz).
    rewrite Hcfg in *. cbn [total_blocks attacker_hashrate main_config] in *.
    destruct (is_zero (Args.attacker_hashrate args)) eqn:Ez; [|reflexivity].
    rewrite He, (expected_reward_zero _ _ _ Ht Ez) in Hnz. discriminate Hnz. }
  destruct (member (Args.attack args) ["doublespend"; "all"]); cbn [bind];
    rewrite timewarp_run;
    (destruct (member (Args.attack args) ["longrange"; "all"]); cbn [bind];
     [ unfold LongRangeAttack.run_simulation; cbv zeta;
       change (float_of_int (10000 - 1000)) with (Ok (float_lit 9000 0));
       change (float_of_int 10000) with (Ok (float_lit 10000 0));
       cbn [bind]; unfold truediv;
       cbn [attacker_hashrate main_config]; rewrite Hrate; cbn [bind] | ]);
    destruct (member (Args.attack args) ["timewarp"; "all"]); cbn [bind];
    eexists; split; reflexivity.
Qed.

(** C3, as the code has it: nothing checks the configuration.  For all
    arguments, whatever the hashrate and the round count, no run raises
    [InvalidConfiguration], and a selected selfish-mining scenario runs
    the loop over the rounds [1 .. blocks] from the simulator [main]
    builds: [main] stops with the exception that stops the loop or the
    report, and else returns with the simulator the loop left and its
    report.  That simulator starts with both chains holding the genesis
    block, every counter at zero and three honest miners, and a round
    count of zero or less makes the loop run no round. *)
Theorem no_configuration_check (args : Args.t) (rng : Z -> Draw)
    (clock : Z -> Clock) (now : Z) :
  let start := initialize_genesis (__init__ (main_config args)) in
  main args rng clock now <> Raise InvalidConfiguration /\
  (member (Args.attack args) ["selfish"; "all"] = true ->
   match run_rounds rng clock (range 1 (Args.blocks args + 1)) start with
   | Raise e => main args rng clock now = Raise e
   | Ok self =>
       match _print_results self with
       | Raise e => main args rng clock now = Raise e
       | Ok report =>
           exists outcome,
             main args rng clock now = Ok outcome /\
             selfish outcome = Some (self, report)
       end
   end) /\
  public_chain start = [genesis] /\
  attacker_chain start = [genesis] /\
  attacker_blocks_mined start = 0 /\
  honest_blocks_mined start = 0 /\
  attacker_blocks_in_main_chain start = 0 /\
  honest_blocks_in_main_chain start = 0 /\
  reorgs start = 0 /\
  length (honest_miners start) = 3%nat /\
  (Args.blocks args <= 0 ->
   run_rounds rng clock (range 1 (Args.blocks args + 1)) start = Ok start).
Proof.
  cbv zeta. split; [|split].
  - intros H. apply main_raises in H.
    destruct H as [H | [H | [H | H]]]; discriminate H.
  - intros Hsel.
    destruct (run_rounds rng clock (range 1 (Args.blocks args + 1))
                (initialize_genesis (__init__ (main_config args))))
      as [self|e] eqn:Hloop.
    + destruct (_print_results self) as [report|e] eqn:Hrep.
      * apply main_after_report; assumption.
      * unfold main, run_simulation, simulation_loop. cbv zeta.
        change (total_blocks (config (initialize_genesis (__init__ (main_config args)))))
          with (Args.blocks args).
        rewrite Hsel, Hloop. cbn [bind]. rewrite Hrep. reflexivity.
    + unfold main, run_simulation, simulation_loop. cbv zeta.
      change (total_blocks (config (initialize_genesis (__init__ (main_config args)))))
        with (Args.blocks args).
      rewrite Hsel, Hloop. reflexivity.
  - repeat split.
    intros Hle. rewrite range_empty; [reflexivity | lia].
Qed.

(** With every scenario selected.  Hashrate 1.5, above the range, with
    five rounds: the five rounds run and all four scenarios complete.
    Minus three rounds at hashrate 0.5: no round runs and the report goes
    out, calling the attack profitable.  Zero rounds: no round runs and
    the report stops on a division by zero.  Hashrate -0.5: the honest
    miners mine all five rounds and the report counts a profit. *)
Lemma out_of_range_configurations_run :
  flt f1 (float_lit 3 (-1)) = true /\
  (exists self report d l t,
     main (args_all (float_lit 3 (-1)) 5) demo_rng demo_clock 1763452800
       = Ok {| selfish := Some (self, report); doublespend := Some d;
               longrange := Some l; timewarp := Some t |} /\
     attacker_blocks_mined self = 5) /\
  (exists self report d l t,
     main (args_all half (-3)) demo_rng demo_clock 1763452800
       = Ok {| selfish := Some (self, report); doublespend := Some d;
               longrange := Some l; timewarp := Some t |} /\
     attacker_blocks_mined self + honest_blocks_mined self = 0 /\
     profitable report = true) /\
  main (args_all half 0) demo_rng demo_clock 1763452800
    = Raise ZeroDivisionError /\
  (exists self report d l t,
     main (args_all (float_lit (-1) (-1)) 5) demo_rng demo_clock 1763452800
       = Ok {| selfish := Some (self, report); doublespend := Some d;
               longrange := Some l; timewarp := Some t |} /\
     honest_blocks_mined self = 5 /\
     profitable report = true).
Proof.
  split; [reflexivity|]. split; [|split; [|split]].
  - vm_compute. do 5 eexists. split; reflexivity.
  - vm_compute. do 5 eexists. split; [reflexivity|]. split; reflexivity.
  - vm_compute. reflexivity.
  - vm_compute. do 5 eexists. split; [reflexivity|]. split; reflexivity.
Qed.

(** The long-range scenario alone at hashrate zero: [main] stops on the
    division by the hashrate.  The double-spend and the timestamp
    scenario alone complete whatever the hashrate, NaN included. *)
Example scenarios_alone :
  main {| Args.attack := "longrange"; Args.attacker_hashrate := f0;
          Args.blocks := 5; Args.verbose := false |}
       demo_rng demo_clock 1763452800 = Raise ZeroDivisionError /\
  (exists d,
     main {| Args.attack := "doublespend"; Args.attacker_hashrate := S754_nan;
             Args.blocks := 5; Args.verbose := false |}
          demo_rng demo_clock 1763452800
     = Ok {| selfish := None; doublespend := Some d;
             longrange := None; timewarp := None |}) /\
  (exists t,
     main {| Args.attack := "timewarp"; Args.attacker_hashrate := S754_nan;
             Args.blocks := 5; Args.verbose := false |}
          demo_rng demo_clock 1763452800
     = Ok {| selfish := None; doublespend := None;
             longrange := None; timewarp := Some t |}).
Proof.
  split; [vm_compute; reflexivity|].
  split; vm_compute; eexists; reflexivity.
Qed.

(** ** Two runs on the same draws *)

Lemma same_result_bind {A B : Type} (R : A -> A -> Prop) (S : B -> B -> Prop)
    (m1 m2 : result A) (k1 k2 : A -> result B) :
  same_result R m1 m2 ->
  (forall a1 a2, R a1 a2 -> same_result S (k1 a1) (k2 a2)) ->
  same_result S (bind m1 k1) (bind m2 k2).
Proof.
  destruct m1 as [a1|e1], m2 as [a2|e2]; simpl; intros Hm Hk; auto; contradiction.
Qed.

Lemma same_result_refl {A : Type} (r : result A) : same_result eq r r.
Proof. destruct r; reflexivity. Qed.

Lemma same_chain_refl (l : list Block) : same_chain l l.
Proof. induction l; constructor; [repeat split | assumption]. Qed.

Lemma same_chain_len (l1 l2 : list Block) : same_chain l1 l2 -> len l1 = len l2.
Proof. intros H. unfold len. rewrite (Forall2_length H). reflexivity. Qed.

Lemma same_chain_snoc (l1 l2 : list Block) (b1 b2 : Block) :
  same_chain l1 l2 -> same_block b1 b2 -> same_chain (l1 ++ [b1]) (l2 ++ [b2]).
Proof. intros Hl Hb. apply Forall2_app; [exact Hl | constructor; [exact Hb | constructor]]. Qed.

Lemma same_chain_attacker_blocks (l1 l2 : list Block) :
  same_chain l1 l2 -> attacker_blocks l1 = attacker_blocks l2.
Proof.
  intros H. rewrite !attacker_blocks_mined_by.
  induction H as [|b1 b2 l1 l2 Hb Hl IH]; simpl; [reflexivity|].
  destruct Hb as (_ & _ & _ & _ & Hminer). rewrite Hminer, IH. reflexivity.
Qed.

Lemma same_chain_last_item (l1 l2 : list Block) :
  same_chain l1 l2 -> same_result same_block (last_item l1) (last_item l2).
Proof.
  intros H. induction H as [|b1 b2 l1 l2 Hb Hl IH].
  - reflexivity.
  - destruct Hl as [|c1 c2 l1 l2 Hc Hl].
    + exact Hb.
    + assert (E : forall (a b : Block) l, last_item (a :: b :: l) = last_item (b :: l)).
      { intros a b l. destruct (last_item_Ok (b :: l) ltac:(discriminate)) as (x & Hx).
        rewrite Hx. destruct (exists_last (l := b :: l) ltac:(discriminate)) as (l' & y & Hy).
        rewrite Hy in *. rewrite last_item_app in Hx. injection Hx as <-.
        change (a :: l' ++ [y]) with ((a :: l') ++ [y]). apply last_item_app. }
      rewrite !E. exact IH.
Qed.

(** The block producer reads the clock into the timestamp and the
    identifier alone; whether it raises is settled by the rate and the
    draws. *)
Lemma mine_block_same (self : MiningSimulator) (t1 t2 : Block) (d : Draw)
    (c1 c2 : Clock) :
  same_block t1 t2 ->
  same_result same_block
    (mine_block self (height t1 + 1) (hash t1) 16 d c1)
    (mine_block self (height t2 + 1) (hash t2) 16 d c2).
Proof.
  intros (Hh & _). unfold mine_block.
  destruct (expovariate (fdiv (hashrate self) f60) d) as [t|e]; [|reflexivity].
  unfold bind at 1 3.
  destruct (sleep (fmin t f0_1)) as [u|e]; [|reflexivity].
  simpl. unfold same_block. simpl. rewrite Hh. repeat split.
Qed.

Lemma withheld_same (s1 s2 : SelfishMiningAttack) (b1 b2 : Block) :
  same_simulator s1 s2 -> same_block b1 b2 ->
  same_simulator (withheld s1 b1) (withheld s2 b2).
Proof.
  intros (Hc & Ham & Hhm & Hpub & Hatt & H1 & H2 & H3 & H4 & H5) Hb.
  unfold same_simulator. simpl.
  repeat split; auto; try congruence.
  apply same_chain_snoc; assumption.
Qed.

Lemma broadcast_same (s1 s2 : SelfishMiningAttack) (b1 b2 : Block) :
  same_simulator s1 s2 -> same_block b1 b2 ->
  same_simulator (broadcast s1 b1) (broadcast s2 b2).
Proof.
  intros (Hc & Ham & Hhm & Hpub & Hatt & H1 & H2 & H3 & H4 & H5) Hb.
  unfold same_simulator. simpl.
  repeat split; auto; try congruence.
  apply same_chain_snoc; assumption.
Qed.

Lemma abandoned_same (s1 s2 : SelfishMiningAttack) :
  same_simulator s1 s2 -> same_simulator (abandoned s1) (abandoned s2).
Proof.
  intros (Hc & Ham & Hhm & Hpub & Hatt & H1 & H2 & H3 & H4 & H5).
  unfold same_simulator. simpl.
  rewrite (same_chain_len _ _ Hpub), (same_chain_attacker_blocks _ _ Hpub).
  repeat split; auto.
Qed.

Lemma _attacker_mines_block_same (s1 s2 : SelfishMiningAttack) (d : Draw)
    (c1 c2 : Clock) :
  same_simulator s1 s2 ->
  same_result same_simulator
    (_attacker_mines_block s1 d c1) (_attacker_mines_block s2 d c2).
Proof.
  intros Hs. pose proof Hs as (_ & Ham & _ & _ & Hatt & _).
  unfold _attacker_mines_block.
  apply (same_result_bind same_block); [apply same_chain_last_item, Hatt|].
  intros t1 t2 Ht. rewrite Ham.
  apply (same_result_bind same_block); [apply mine_block_same, Ht|].
  intros b1 b2 Hb. cbv zeta. apply (withheld_same s1 s2 b1 b2 Hs Hb).
Qed.

Lemma _honest_miner_mines_block_same (s1 s2 : SelfishMiningAttack) (d : Draw)
    (c1 c2 : Clock) :
  same_simulator s1 s2 ->
  same_result same_simulator
    (_honest_miner_mines_block s1 d c1) (_honest_miner_mines_block s2 d c2).
Proof.
  intros Hs. pose proof Hs as (_ & _ & Hhm & Hpub & _).
  rewrite !_honest_miner_mines_block_eq, Hhm.
  apply (same_result_bind eq); [apply same_result_refl|].
  intros m ? <-.
  apply (same_result_bind same_block); [apply same_chain_last_item, Hpub|].
  intros t1 t2 Ht.
  apply (same_result_bind same_block); [apply mine_block_same, Ht|].
  intros b1 b2 Hb. cbv zeta.
  pose proof (broadcast_same s1 s2 b1 b2 Hs Hb) as Hs'.
  pose proof Hs' as (_ & _ & _ & Hpub' & Hatt' & _).
  rewrite (same_chain_len _ _ Hpub'), (same_chain_len _ _ Hatt').
  destruct (len (public_chain (broadcast s2 b2)) >=?
            len (attacker_chain (broadcast s2 b2))) eqn:E.
  - apply Z.geb_le in E.
    rewrite (release_not_longer (broadcast s2 b2) E).
    rewrite (release_not_longer (broadcast s1 b1)).
    + apply abandoned_same, Hs'.
    + rewrite (same_chain_len _ _ Hpub'), (same_chain_len _ _ Hatt'). exact E.
  - exact Hs'.
Qed.

Lemma round_body_same (s1 s2 : SelfishMiningAttack) (d : Draw) (c1 c2 : Clock) :
  same_simulator s1 s2 ->
  same_result same_simulator (round_body s1 d c1) (round_body s2 d c2).
Proof.
  intros Hs. pose proof Hs as (Hc & _). unfold round_body. cbv zeta. rewrite Hc.
  destruct (flt (random_value d) (attacker_hashrate (config s2))).
  - apply _attacker_mines_block_same, Hs.
  - apply _honest_miner_mines_block_same, Hs.
Qed.

Lemma run_rounds_same (rng : Z -> Draw) (clock1 clock2 : Z -> Clock)
    (rounds : list Z) :
  forall s1 s2, same_simulator s1 s2 ->
  same_result same_simulator
    (run_rounds rng clock1 rounds s1) (run_rounds rng clock2 rounds s2).
Proof.
  induction rounds as [|r rest IH]; intros s1 s2 Hs; simpl.
  - exact Hs.
  - apply (same_result_bind same_simulator); [apply round_body_same, Hs | apply IH].
Qed.

Lemma _print_results_same (s1 s2 : SelfishMiningAttack) :
  same_simulator s1 s2 -> _print_results s1 = _print_results s2.
Proof.
  intros (Hc & _ & _ & Hpub & _). unfold _print_results.
  rewrite Hc, (same_chain_attacker_blocks _ _ Hpub). reflexivity.
Qed.

(** C4, as the code has it: two runs on the same arguments and the same
    draws, whatever the clock reads in each, end alike in all that is not
    read from the clock: they raise the same exception or both complete,
    having run the same scenarios; the selfish-mining runs have the same
    counters and reorg count, chains of the same lengths that agree
    position by position on height, difficulty, nonce, transactions and
    miner, and equal reports; and the other scenarios derive the same
    values. *)
Theorem outcome_independent_of_clock (args : Args.t) (rng : Z -> Draw)
    (clock1 clock2 : Z -> Clock) (now1 now2 : Z) :
  same_result same_outcome (main args rng clock1 now1) (main args rng clock2 now2).
Proof.
  unfold main. cbv zeta. rewrite !timewarp_run.
  apply (same_result_bind (same_option same_run)).
  - destruct (member (Args.attack args) ["selfish"; "all"]); [|exact I].
    apply (same_result_bind same_run).
    + unfold run_simulation.
      apply (same_result_bind same_simulator).
      * unfold simulation_loop. cbv zeta. apply run_rounds_same.
        unfold same_simulator. repeat split; apply same_chain_refl.
      * intros s1 s2 Hs. rewrite (_print_results_same s1 s2 Hs).
        destruct (_print_results s2) as [r|e]; simpl; [|reflexivity].
        split; [exact Hs | reflexivity].
    + intros r1 r2 H. exact H.
  - intros o1 o2 Ho.
    destruct (member (Args.attack args) ["doublespend"; "all"]); cbn [bind];
      (destruct (member (Args.attack args) ["longrange"; "all"]); cbn [bind];
       [destruct (LongRangeAttack.run_simulation (main_config args)) as [l|e];
        cbn [bind]; [|reflexivity] | ]);
      destruct (member (Args.attack args) ["timewarp"; "all"]); cbn [bind];
      repeat split; exact Ho.
Qed.

(** The same draws under two clocks one second apart: the public chains
    differ, in the timestamps and in the identifiers. *)
Lemma same_draws_different_chains :
  exists s1 s2,
    simulation_loop (__init__ demo_config) demo_rng (clock_from 1763452800) = Ok s1 /\
    simulation_loop (__init__ demo_config) demo_rng (clock_from 1763452801) = Ok s2 /\
    map timestamp (public_chain s1) <> map timestamp (public_chain s2) /\
    map hash (public_chain s1) <> map hash (public_chain s2) /\
    public_chain s1 <> public_chain s2.
Proof.
  vm_compute. eexists. eexists.
  split; [reflexivity|]. split; [reflexivity|].
  repeat split; discriminate.
Qed.

(** * Further properties of the simulator *)

(** ** What a round does to the two chains *)

(** The two ways a round can complete. *)
Lemma round_body_cases (self self' : SelfishMiningAttack) (d : Draw) (c : Clock) :
  round_body self d c = Ok self' ->
  (exists tip,
     last_item (attacker_chain self) = Ok tip /\
     self' = withheld self (mined (attacker_miner self) tip d c)) \/
  (exists m tip,
     index (honest_miners self) (choice d) = Ok m /\
     last_item (public_chain self) = Ok tip /\
     ((len (attacker_chain self) <= len (public_chain self) + 1 /\
       self' = abandoned (broadcast self (mined m tip d c))) \/
      (len (public_chain self) + 1 < len (attacker_chain self) /\
       self' = broadcast self (mined m tip d c)))).
Proof.
  unfold round_body. cbv zeta. intros H.
  destruct (flt (random_value d) (attacker_hashrate (config self))).
  - left. apply _attacker_mines_block_Ok in H. exact H.
  - right. apply _honest_miner_mines_block_Ok in H.
    destruct H as (m & tip & Hm & Htip & Hcases). exists m, tip.
    split; [exact Hm|]. split; [exact Htip|].
    cbv zeta in Hcases. simpl public_chain in Hcases. simpl attacker_chain in Hcases.
    rewrite len_app_one in Hcases. exact Hcases.
Qed.

(** X1: a round never rewrites the public chain.  Over any rounds that
    complete, from any simulator, the public chain afterwards is the
    public chain before followed by one block per honest block mined. *)
Theorem public_chain_only_grows (rng : Z -> Draw) (clock : Z -> Clock)
    (rounds : list Z) (self self' : SelfishMiningAttack) :
  run_rounds rng clock rounds self = Ok self' ->
  exists added,
    public_chain self' = public_chain self ++ added /\
    len added = honest_blocks_mined self' - honest_blocks_mined self.
Proof.
  revert self. induction rounds as [|r rest IH]; intros self Hrun; simpl in Hrun.
  - injection Hrun as <-. exists []. rewrite app_nil_r. split; [reflexivity|].
    unfold len. simpl. lia.
  - inv_bind Hrun. rename x into s1.
    destruct (IH s1 Hrun) as (added & Hpub & Hlen).
    apply round_body_cases in Hx.
    destruct Hx as [(tip & _ & ->) | (m & tip & _ & _ & [(_ & ->) | (_ & ->)])].
    + exists added. split; [exact Hpub | exact Hlen].
    + exists (mined m tip (rng r) (clock r) :: added).
      simpl in Hpub, Hlen. rewrite Hpub, <- app_assoc. split; [reflexivity|].
      unfold len in *. simpl length. lia.
    + exists (mined m tip (rng r) (clock r) :: added).
      simpl in Hpub, Hlen. rewrite Hpub, <- app_assoc. split; [reflexivity|].
      unfold len in *. simpl length. lia.
Qed.

Lemma public_chain_only_grows_witness :
  exists self' added,
    run_rounds demo_rng demo_clock (range 1 6)
      (initialize_genesis (__init__ demo_config)) = Ok self' /\
    public_chain self' =
      public_chain (initialize_genesis (__init__ demo_config)) ++ added /\
    len added =
      honest_blocks_mined self'
      - honest_blocks_mined (initialize_genesis (__init__ demo_config)).
Proof.
  destruct (run_rounds demo_rng demo_clock (range 1 6)
              (initialize_genesis (__init__ demo_config))) as [self'|e] eqn:E.
  - exists self'.
    destruct (public_chain_only_grows demo_rng demo_clock (range 1 6)
                (initialize_genesis (__init__ demo_config)) self' E)
      as (added & H1 & H2).
    exists added. split; [reflexivity|]. split; [exact H1 | exact H2].
  - exfalso. vm_compute in E. discriminate E.
Defined.

(** ** Lengths *)

(** X2: after [n] completed rounds of any run the public chain has one
    block per honest block mined plus the genesis block, the private
    chain is at least as long as the public one, and it has at most
    [n + 1] blocks. *)
Theorem chain_lengths (cfg : SimulationConfig) (n : nat)
    (self : SelfishMiningAttack) :
  reachable cfg n self ->
  len (public_chain self) = honest_blocks_mined self + 1 /\
  len (public_chain self) <= len (attacker_chain self) /\
  len (attacker_chain self) <= Z.of_nat n + 1.
Proof.
  intros Hreach.
  assert (H : len (public_chain self) = honest_blocks_mined self + 1 /\
              len (public_chain self) <= len (attacker_chain self) /\
              0 <= attacker_blocks_mined self /\
              len (attacker_chain self)
                <= attacker_blocks_mined self + honest_blocks_mined self + 1 /\
              attacker_blocks_mined self + honest_blocks_mined self = Z.of_nat n).
  { induction Hreach as [|n self self' d c Hreach IH Hstep].
    - unfold len. simpl. lia.
    - destruct IH as (Hpub & Hle & Ham & Hatt & Hsum).
      apply round_body_cases in Hstep.
      destruct Hstep as [(tip & _ & ->) | (m & tip & _ & _ & [(Hc & ->) | (Hc & ->)])];
        simpl; rewrite ?len_app_one; lia. }
  destruct H as (Hpub & Hle & _ & Hatt & Hsum). lia.
Qed.

Lemma chain_lengths_witness :
  exists self,
    simulation_loop (__init__ demo_config) demo_rng demo_clock = Ok self /\
    len (public_chain self) = honest_blocks_mined self + 1 /\
    len (public_chain self) <= len (attacker_chain self) /\
    len (attacker_chain self) <= 5 + 1.
Proof.
  destruct (simulation_loop (__init__ demo_config) demo_rng demo_clock)
    as [self|e] eqn:E.
  - exists self. split; [reflexivity|].
    apply (chain_lengths demo_config 5 self).
    apply (simulation_loop_reachable demo_config demo_rng demo_clock). exact E.
  - exfalso. vm_compute in E. discriminate E.
Defined.

(** ** The fork *)

Lemma mined_by_none (chain : list Block) :
  Forall (fun b => miner b <> ATTACKER) chain -> mined_by ATTACKER chain = 0.
Proof.
  induction 1 as [|b rest Hb Hrest IH]; simpl; [reflexivity|].
  destruct (string_dec (miner b) ATTACKER); [contradiction | exact IH].
Qed.

(** X3: in every state a run can reach the two chains are a common
    prefix followed, on the public side, by blocks of honest miners and,
    on the private side, by blocks of the attacker; no block of the
    common prefix is the attacker's; the public side of the fork is empty
    or shorter than the private side; and
    [honest_blocks_in_main_chain] is 0 or the length of the common
    prefix, genesis block included. *)
Theorem chains_fork_from_common_prefix (cfg : SimulationConfig) (n : nat)
    (self : SelfishMiningAttack) :
  reachable cfg n self ->
  exists base hs ws,
    public_chain self = base ++ hs /\
    attacker_chain self = base ++ ws /\
    Forall (fun b => miner b <> ATTACKER) (base ++ hs) /\
    Forall (fun b => miner b = ATTACKER) ws /\
    (hs = [] \/ (length hs < length ws)%nat) /\
    (honest_blocks_in_main_chain self = 0 \/
     honest_blocks_in_main_chain self = len base).
Proof.
  induction 1 as [|n self self' d c Hreach IH Hstep].
  - exists [genesis], [], []. simpl.
    split; [reflexivity|]. split; [reflexivity|].
    split; [constructor; [vm_compute; discriminate | constructor]|].
    split; [constructor|]. split; left; reflexivity.
  - destruct IH as (base & hs & ws & Hpub & Hatt & Hhon & Hws & Hshort & Hmain).
    destruct (reachable_config cfg n self Hreach) as (_ & Hminer & Hminers).
    apply round_body_cases in Hstep.
    destruct Hstep as [(tip & _ & ->) | (m & tip & Hm & _ & Hcases)].
    + exists base, hs, (ws ++ [mined (attacker_miner self) tip d c]). simpl.
      split; [exact Hpub|]. split; [rewrite Hatt, app_assoc; reflexivity|].
      split; [exact Hhon|]. split.
      { apply Forall_app. split; [exact Hws|]. constructor; [|constructor].
        rewrite Hminer. reflexivity. }
      split; [|exact Hmain].
      destruct Hshort as [->|Hlt]; [left; reflexivity | right].
      rewrite length_app. simpl. lia.
    + rewrite Hminers in Hm. apply honest_ids in Hm.
      assert (Hhon' : Forall (fun b => miner b <> ATTACKER)
                        (base ++ hs ++ [mined m tip d c])).
      { rewrite app_assoc. apply Forall_app. split; [exact Hhon|].
        constructor; [exact Hm | constructor]. }
      destruct Hcases as [(Hc & ->) | (Hc & ->)].
      * exists (base ++ hs ++ [mined m tip d c]), [], []. simpl.
        rewrite !app_nil_r, Hpub, <- app_assoc.
        split; [reflexivity|]. split; [reflexivity|]. split; [exact Hhon'|].
        split; [constructor|]. split; [left; reflexivity|]. right.
        rewrite attacker_blocks_mined_by, (mined_by_none _ Hhon'). lia.
      * exists base, (hs ++ [mined m tip d c]), ws. simpl.
        rewrite Hpub, <- app_assoc.
        split; [reflexivity|]. split; [exact Hatt|]. split; [exact Hhon'|].
        split; [exact Hws|]. split; [|exact Hmain]. right.
        rewrite Hpub, Hatt in Hc. unfold len in Hc.
        rewrite !length_app in Hc. rewrite length_app. simpl. lia.
Qed.

Lemma chains_fork_from_common_prefix_witness :
  exists self,
    run_rounds demo_rng demo_clock (range 1 4)
      (initialize_genesis (__init__ demo_config)) = Ok self /\
    exists base hs ws,
      public_chain self = base ++ hs /\
      attacker_chain self = base ++ ws /\
      Forall (fun b => miner b <> ATTACKER) (base ++ hs) /\
      Forall (fun b => miner b = ATTACKER) ws /\
      (hs = [] \/ (length hs < length ws)%nat) /\
      (honest_blocks_in_main_chain self = 0 \/
       honest_blocks_in_main_chain self = len base).
Proof.
  destruct (run_rounds demo_rng demo_clock (range 1 4)
              (initialize_genesis (__init__ demo_config))) as [self|e] eqn:E.
  - exists self. split; [reflexivity|].
    apply (chains_fork_from_common_prefix demo_config 3 self).
    apply (prefix_reachable demo_config demo_rng demo_clock 3). exact E.
  - exfalso. vm_compute in E. discriminate E.
Defined.

(** ** Links *)

Lemma last_item_inv {A : Type} (l : list A) (x : A) :
  last_item l = Ok x -> exists l', l = l' ++ [x].
Proof.
  intros H. destruct l as [|a l].
  - discriminate H.
  - destruct (exists_last (l := a :: l) ltac:(discriminate)) as (l' & y & Hy).
    rewrite Hy in *. rewrite last_item_app in H. injection H as <-.
    exists l'. reflexivity.
Qed.

Lemma grown_links (chain : list Block) :
  grown chain ->
  nth_error chain 0 = Some genesis /\
  (forall i b, nth_error chain i = Some b -> height b = Z.of_nat i) /\
  (forall i a b,
     nth_error chain i = Some a -> nth_error chain (S i) = Some b ->
     prev_hash b = hash a).
Proof.
  induction 1 as [|chain tip b Hgrown IH Htip Hheight Hprev].
  - split; [reflexivity|]. split.
    + intros i b H. destruct i as [|[|i]]; try discriminate H.
      injection H as <-. reflexivity.
    + intros i a b _ H. destruct i as [|[|i]]; discriminate H.
  - destruct IH as (H0 & Hh & Hl).
    destruct (last_item_inv chain tip Htip) as (l' & Hchain).
    assert (Hlen : length chain = S (length l')).
    { rewrite Hchain, length_app. simpl. lia. }
    assert (Htipat : nth_error chain (length l') = Some tip).
    { rewrite Hchain, nth_error_app2, Nat.sub_diag by lia. reflexivity. }
    split; [|split].
    + rewrite nth_error_app1 by lia. exact H0.
    + intros i x Hx. destruct (Nat.lt_ge_cases i (length chain)) as [Hlt|Hge].
      * rewrite nth_error_app1 in Hx by exact Hlt. apply Hh, Hx.
      * rewrite nth_error_app2 in Hx by exact Hge.
        destruct (i - length chain)%nat as [|k] eqn:Ek; simpl in Hx;
          [|destruct k; discriminate Hx].
        injection Hx as <-. rewrite Hheight, (Hh _ _ Htipat). lia.
    + intros i x y Hx Hy.
      destruct (Nat.lt_ge_cases (S i) (length chain)) as [Hlt|Hge].
      * rewrite nth_error_app1 in Hx by lia.
        rewrite nth_error_app1 in Hy by exact Hlt. apply (Hl i x y Hx Hy).
      * rewrite nth_error_app2 in Hy by exact Hge.
        destruct (S i - length chain)%nat as [|k] eqn:Ek; simpl in Hy;
          [|destruct k; discriminate Hy].
        injection Hy as <-.
        assert (Hi : i = length l') by lia. subst i.
        rewrite nth_error_app1 in Hx by lia.
        rewrite Htipat in Hx. injection Hx as <-. exact Hprev.
Qed.

Lemma reachable_grown (cfg : SimulationConfig) (n : nat)
    (self : SelfishMiningAttack) :
  reachable cfg n self ->
  grown (public_chain self) /\ grown (attacker_chain self).
Proof.
  induction 1 as [|n self self' d c Hreach IH Hstep].
  - split; constructor.
  - destruct IH as (Hpub & Hatt).
    apply round_body_cases in Hstep.
    destruct Hstep as [(tip & Htip & ->) | (m & tip & _ & Htip & [(_ & ->) | (_ & ->)])];
      simpl; split; try assumption;
      (eapply grown_snoc; [eassumption | exact Htip | reflexivity | reflexivity]).
Qed.

(** X4: in every state a run can reach, each of the two chains starts
    with the genesis block, the block at position [i] has height [i], and
    every block carries as [prev_hash] the [hash] of the block before
    it. *)
Theorem chains_are_linked (cfg : SimulationConfig) (n : nat)
    (self : SelfishMiningAttack) (chain : list Block) :
  reachable cfg n self ->
  chain = public_chain self \/ chain = attacker_chain self ->
  nth_error chain 0 = Some genesis /\
  (forall i b, nth_error chain i = Some b -> height b = Z.of_nat i) /\
  (forall i a b,
     nth_error chain i = Some a -> nth_error chain (S i) = Some b ->
     prev_hash b = hash a).
Proof.
  intros Hreach Hchain. apply reachable_grown in Hreach.
  destruct Hreach as (Hpub & Hatt).
  destruct Hchain as [-> | ->]; apply grown_links; assumption.
Qed.

Lemma chains_are_linked_witness :
  exists self,
    run_rounds demo_rng demo_clock (range 1 4)
      (initialize_genesis (__init__ demo_config)) = Ok self /\
    nth_error (attacker_chain self) 0 = Some genesis /\
    (forall i b, nth_error (attacker_chain self) i = Some b ->
                 height b = Z.of_nat i) /\
    (forall i a b,
       nth_error (attacker_chain self) i = Some a ->
       nth_error (attacker_chain self) (S i) = Some b ->
       prev_hash b = hash a).
Proof.
  destruct (run_rounds demo_rng demo_clock (range 1 4)
              (initialize_genesis (__init__ demo_config))) as [self|e] eqn:E.
  - exists self. split; [reflexivity|].
    apply (chains_are_linked demo_config 3 self (attacker_chain self)).
    + apply (prefix_reachable demo_config demo_rng demo_clock 3). exact E.
    + right. reflexivity.
  - exfalso. vm_compute in E. discriminate E.
Defined.

(** ** The verdict *)

Lemma binary_round_signed (s : bool) (m : positive) (e : Z) :
  signed s (binary_round prec emax s m e).
Proof.
  unfold binary_round.
  destruct (shl_align m e (fexp prec emax (Z.pos (digits2_pos m) + e))) as [mz ez].
  apply binary_round_aux_signed. lia.
Qed.

Lemma signed_false_nonneg (x : float) : signed false x -> nonneg x.
Proof. destruct x as [s|s| |s m e]; simpl; intros H; subst; auto. Qed.

Lemma float_of_int_nonneg (n : Z) (t : float) :
  0 <= n -> float_of_int n = Ok t -> nonneg t.
Proof.
  intros Hn H. unfold float_of_int, binary_normalize in H.
  destruct n as [|p|p]; [injection H as <-; exact I | | lia].
  pose proof (binary_round_signed false p 0) as Hs.
  destruct (binary_round prec emax false p 0) as [s|s| |s m e]; try discriminate H;
    injection H as <-; apply signed_false_nonneg, Hs.
Qed.

Lemma fmul_nonneg_not_negative (x y : float) :
  nonneg x -> nonneg y -> flt (fmul x y) f0 = false.
Proof.
  intros Hx Hy.
  destruct x as [sx|sx| |sx mx ex]; try destruct sx; try contradiction;
    destruct y as [sy|sy| |sy my ey]; try destruct sy; try contradiction;
    try reflexivity.
  unfold fmul, SFmul. simpl xorb.
  pose proof (binary_round_aux_signed false (Z.pos (mx * my)) (ex + ey) loc_Exact
                ltac:(lia)) as Hs.
  destruct (binary_round_aux prec emax false (Z.pos (mx * my)) (ex + ey) loc_Exact)
    as [s|s| |s m e]; simpl in Hs; subst; try reflexivity; contradiction.
Qed.

(** The verdict of a report whose public chain holds no block of the
    attacker. *)
Lemma verdict_sign (self : SelfishMiningAttack) (report : Report) :
  mined_by ATTACKER (public_chain self) = 0 ->
  _print_results self = Ok report ->
  actual_attacker_reward report = 0 /\
  profitable report = flt (expected_attacker_reward report) f0.
Proof.
  intros Hnone Hrep. apply _print_results_Ok in Hrep.
  destruct Hrep as (total & actual & _ & Ha & _ & Hact & Hp & Hv & _).
  rewrite Hnone in Ha, Hact. injection Ha as <-.
  split; [exact Hact|]. rewrite Hv, Hp.
  destruct (expected_attacker_reward report) as [s|s| |s m e];
    try destruct s; reflexivity.
Qed.

(** X5: whatever the run, its report counts no attacker block in the main
    chain, and it calls selfish mining profitable exactly when the
    expected reward [attacker_hashrate * total_blocks] is below zero: the
    verdict does not depend on what was mined. *)
Theorem verdict_ignores_the_run (cfg : SimulationConfig) (rng : Z -> Draw)
    (clock : Z -> Clock) (self : SelfishMiningAttack) (report : Report) :
  simulation_loop (__init__ cfg) rng clock = Ok self ->
  _print_results self = Ok report ->
  actual_attacker_reward report = 0 /\
  profitable report = flt (expected_attacker_reward report) f0.
Proof.
  intros Hloop Hrep. apply simulation_loop_reachable in Hloop.
  apply (verdict_sign self report); [|exact Hrep].
  apply (reachable_public_honest cfg _ self Hloop).
Qed.

Lemma verdict_ignores_the_run_witness :
  exists self report,
    simulation_loop (__init__ demo_config) demo_rng demo_clock = Ok self /\
    _print_results self = Ok report /\
    actual_attacker_reward report = 0 /\
    profitable report = flt (expected_attacker_reward report) f0.
Proof.
  destruct (simulation_loop (__init__ demo_config) demo_rng demo_clock)
    as [self|e] eqn:E; [|exfalso; vm_compute in E; discriminate E].
  destruct (_print_results self) as [report|e] eqn:R.
  - exists self, report. split; [reflexivity|]. split; [exact R|].
    apply (verdict_ignores_the_run demo_config demo_rng demo_clock self report E R).
  - exfalso. vm_compute in E. injection E as <-. vm_compute in R. discriminate R.
Defined.

(** X6: with an attacker hashrate that is not negative and a round
    count that is not negative, no report calls selfish mining
    profitable, whatever the draws. *)
Theorem never_profitable (cfg : SimulationConfig) (rng : Z -> Draw)
    (clock : Z -> Clock) (self : SelfishMiningAttack) (report : Report) :
  fle f0 (attacker_hashrate cfg) = true ->
  0 <= total_blocks cfg ->
  simulation_loop (__init__ cfg) rng clock = Ok self ->
  _print_results self = Ok report ->
  profitable report = false.
Proof.
  intros Hh Hn Hloop Hrep. apply simulation_loop_reachable in Hloop.
  destruct (reachable_config cfg _ self Hloop) as (Hcfg & _ & _).
  pose proof (reachable_public_honest cfg _ self Hloop) as Hnone.
  destruct (verdict_sign self report Hnone Hrep) as (_ & ->).
  apply _print_results_Ok in Hrep.
  destruct Hrep as (total & actual & Ht & _ & He & _).
  rewrite Hcfg in *. rewrite He.
  apply fmul_nonneg_not_negative.
  - apply fle_f0_nonneg, Hh.
  - apply (float_of_int_nonneg _ _ Hn Ht).
Qed.

Lemma never_profitable_witness :
  exists self report,
    fle f0 (attacker_hashrate demo_config) = true /\
    0 <= total_blocks demo_config /\
    simulation_loop (__init__ demo_config) demo_rng demo_clock = Ok self /\
    _print_results self = Ok report /\
    profitable report = false.
Proof.
  destruct (simulation_loop (__init__ demo_config) demo_rng demo_clock)
    as [self|e] eqn:E; [|exfalso; vm_compute in E; discriminate E].
  destruct (_print_results self) as [report|e] eqn:R.
  - exists self, report. split; [reflexivity|]. split; [simpl; lia|].
    split; [reflexivity|]. split; [exact R|].
    apply (never_profitable demo_config demo_rng demo_clock self report);
      [reflexivity | simpl; lia | exact E | exact R].
  - exfalso. vm_compute in E. injection E as <-. vm_compute in R. discriminate R.
Defined.

(** ** Hashrate zero *)

Lemma float_of_int_Raise (n : Z) (e : exn) :
  float_of_int n = Raise e -> e = OverflowError.
Proof.
  unfold float_of_int.
  destruct (binary_normalize prec emax n 0 false); intros H; try discriminate H.
  injection H as <-. reflexivity.
Qed.

Lemma zero_hashrate_report (self : SelfishMiningAttack) :
  is_zero (attacker_hashrate (config self)) = true ->
  _print_results self = Raise ZeroDivisionError \/
  _print_results self = Raise OverflowError.
Proof.
  intros Hzero. unfold _print_results.
  destruct (float_of_int (total_blocks (config self))) as [total|e] eqn:Et.
  2:{ right. apply float_of_int_Raise in Et. subst e. reflexivity. }
  unfold bind at 1.
  destruct (float_of_int (attacker_blocks (public_chain self))) as [actual|e] eqn:Ea.
  2:{ right. apply float_of_int_Raise in Ea. subst e. reflexivity. }
  unfold bind at 1. left.
  assert (Hexp : is_zero (fmul (attacker_hashrate (config self)) total) = true).
  { unfold float_of_int in Et.
    pose proof (binary_normalize_not_nan (total_blocks (config self)) 0 false) as Hnn.
    destruct (binary_normalize prec emax (total_blocks (config self)) 0 false)
      as [s1|s1| |s1 m1 e1]; try discriminate Et; try contradiction;
      injection Et as <-;
      destruct (attacker_hashrate (config self)) as [s|s| |s m e];
      try discriminate Hzero; reflexivity. }
  unfold truediv. rewrite Hexp. reflexivity.
Qed.

(** X7: with attacker hashrate 0 (of either sign), a round count that is
    not negative and draws the [random] module can give, a selected
    selfish-mining scenario never gets to its verdict: the loop
    completes and the report then raises [ZeroDivisionError] on the
    percentage of the Profit/Loss line ([OverflowError] when the round
    count is too large for a float). *)
Theorem zero_hashrate_never_reports (args : Args.t) (rng : Z -> Draw)
    (clock : Z -> Clock) (now : Z) :
  is_zero (Args.attacker_hashrate args) = true ->
  0 <= Args.blocks args ->
  (forall round, draw_ok (rng round)) ->
  member (Args.attack args) ["selfish"; "all"] = true ->
  main args rng clock now = Raise ZeroDivisionError \/
  main args rng clock now = Raise OverflowError.
Proof.
  intros Hzero Hblocks Hrng Hsel. unfold main. cbv zeta. rewrite Hsel.
  unfold run_simulation.
  assert (Hloop : exists self,
             simulation_loop (__init__ (main_config args)) rng clock = Ok self /\
             config self = main_config args).
  { unfold simulation_loop. cbv zeta.
    destruct (zero_rounds args Hzero rng clock
                (range 1 (total_blocks (config (initialize_genesis
                                                  (__init__ (main_config args)))) + 1))
                Hrng (initialize_genesis (__init__ (main_config args))))
      as (self & Hrun & (Hcfg & _) & _).
    - unfold level. simpl. repeat split; auto. discriminate.
    - exists self. split; [exact Hrun | exact Hcfg]. }
  destruct Hloop as (self & Hloop & Hcfg). rewrite Hloop. cbn [bind].
  destruct (zero_hashrate_report self) as [Hr | Hr].
  - rewrite Hcfg. exact Hzero.
  - left. rewrite Hr. reflexivity.
  - right. rewrite Hr. reflexivity.
Qed.

Lemma zero_hashrate_never_reports_witness :
  is_zero (Args.attacker_hashrate (args_of f0 5)) = true /\
  0 <= Args.blocks (args_of f0 5) /\
  (forall round, draw_ok (draws_of [] round)) /\
  member (Args.attack (args_of f0 5)) ["selfish"; "all"] = true /\
  (main (args_of f0 5) (draws_of []) demo_clock 1763452800
     = Raise ZeroDivisionError \/
   main (args_of f0 5) (draws_of []) demo_clock 1763452800
     = Raise OverflowError).
Proof.
  split; [reflexivity|]. split; [simpl; lia|]. split; [apply draws_of_ok|].
  split; [reflexivity|].
  apply (zero_hashrate_never_reports (args_of f0 5) (draws_of []) demo_clock
           1763452800).
  - reflexivity.
  - simpl. lia.
  - apply draws_of_ok.
  - reflexivity.
Defined.

(** ** Miners that cannot mine *)

Lemma mine_block_zero_rate (self : MiningSimulator) (height : Z)
    (prev_hash : string) (difficulty : Z) (d : Draw) (c : Clock) :
  is_zero (hashrate self) = true ->
  mine_block self height prev_hash difficulty d c = Raise ZeroDivisionError.
Proof.
  unfold mine_block, expovariate, truediv. intros H.
  destruct (hashrate self) as [s|s| |s m e]; try discriminate H.
  destruct s; reflexivity.
Qed.

Lemma mine_block_nan_rate (self : MiningSimulator) (height : Z)
    (prev_hash : string) (difficulty : Z) (d : Draw) (c : Clock) :
  is_nan (hashrate self) = true ->
  mine_block self height prev_hash difficulty d c = Raise ValueError.
Proof.
  unfold mine_block, expovariate, truediv. intros H.
  destruct (hashrate self) as [s|s| |s m e]; try discriminate H.
  change (fdiv S754_nan f60) with S754_nan. cbn [is_zero bind].
  replace (fdiv (expo d) S754_nan) with S754_nan
    by (destruct (expo d); reflexivity).
  reflexivity.
Qed.

(** X8: the block producer has no block for a miner whose hashrate is
    zero or not a number, whatever the tip and the draws: the delay it
    draws first divides by the rate ([ZeroDivisionError]) or comes out
    as NaN, which [time.sleep] refuses ([ValueError]). *)
Theorem mine_block_needs_a_rate (self : MiningSimulator) (height : Z)
    (prev_hash : string) (difficulty : Z) (d : Draw) (c : Clock) :
  (is_zero (hashrate self) = true ->
   mine_block self height prev_hash difficulty d c = Raise ZeroDivisionError) /\
  (is_nan (hashrate self) = true ->
   mine_block self height prev_hash difficulty d c = Raise ValueError).
Proof.
  split; [apply mine_block_zero_rate | apply mine_block_nan_rate].
Qed.

Lemma range_first (lo hi : Z) : lo < hi -> range lo hi = lo :: range (lo + 1) hi.
Proof.
  intros H. unfold range.
  replace (Z.to_nat (hi - lo)) with (S (Z.to_nat (hi - (lo + 1)))) by lia.
  cbn [seq map]. f_equal; [lia|].
  rewrite <- seq_shift, map_map. apply map_ext. intros a. lia.
Qed.

(** X9: a selected selfish-mining scenario whose attacker hashrate is
    NaN, with at least one round, stops in its first round with
    [ValueError]: no draw is below NaN, so an honest miner is asked to
    mine, and the honest rate [1.0 - NaN] is NaN. *)
Theorem nan_hashrate_stops_first_round (args : Args.t) (rng : Z -> Draw)
    (clock : Z -> Clock) (now : Z) :
  is_nan (Args.attacker_hashrate args) = true ->
  1 <= Args.blocks args ->
  (choice (rng 1%Z) < 3)%nat ->
  member (Args.attack args) ["selfish"; "all"] = true ->
  main args rng clock now = Raise ValueError.
Proof.
  intros Hnan Hblocks Hchoice Hsel. unfold main. cbv zeta. rewrite Hsel.
  unfold run_simulation, simulation_loop. cbv zeta.
  change (total_blocks (config (initialize_genesis (__init__ (main_config args)))))
    with (Args.blocks args).
  rewrite range_first by lia. cbn [run_rounds].
  assert (Hround : round_body (initialize_genesis (__init__ (main_config args)))
                     (rng 1) (clock 1) = Raise ValueError).
  { unfold round_body. cbv zeta.
    change (attacker_hashrate (config (initialize_genesis (__init__ (main_config args)))))
      with (Args.attacker_hashrate args).
    destruct (Args.attacker_hashrate args) as [s|s| |s m e] eqn:Eh;
      try discriminate Hnan.
    assert (Hflt : flt (random_value (rng 1)) S754_nan = false)
      by (destruct (random_value (rng 1)); reflexivity).
    rewrite Hflt, _honest_miner_mines_block_eq.
    destruct (init_honest_miners (main_config args) (choice (rng 1)) Hchoice)
      as (m & Hm & Hrate & _).
    change (honest_miners (initialize_genesis (__init__ (main_config args))))
      with (honest_miners (__init__ (main_config args))).
    rewrite Hm. unfold bind at 1.
    change (last_item (public_chain (initialize_genesis (__init__ (main_config args)))))
      with (Ok genesis). unfold bind at 1.
    rewrite (mine_block_nan_rate m (height genesis + 1) (hash genesis) 16
               (rng 1) (clock 1)); [reflexivity|].
    rewrite Hrate. unfold main_config. cbn [honest_hashrate]. rewrite Eh. reflexivity. }
  rewrite Hround. reflexivity.
Qed.

Lemma nan_hashrate_stops_first_round_witness :
  is_nan (Args.attacker_hashrate (args_of S754_nan 5)) = true /\
  1 <= Args.blocks (args_of S754_nan 5) /\
  (choice (demo_rng 1%Z) < 3)%nat /\
  member (Args.attack (args_of S754_nan 5)) ["selfish"; "all"] = true /\
  main (args_of S754_nan 5) demo_rng demo_clock 1763452800 = Raise ValueError.
Proof.
  split; [reflexivity|]. split; [simpl; lia|]. split; [simpl; lia|].
  split; [reflexivity|].
  apply (nan_hashrate_stops_first_round (args_of S754_nan 5) demo_rng demo_clock
           1763452800).
  - reflexivity.
  - simpl. lia.
  - simpl. lia.
  - reflexivity.
Defined.

(** ** The timestamp scenario, under any clock *)

(** X10: whatever the clock reads, the hundred timestamps the scenario
    builds under the median-time-past rule are [current_time + 59] eleven
    times and then one second more with every six blocks, so that they
    span 15 seconds; the unprotected timestamps span none; and since 15
    is below three quarters of the expected 60000 seconds the scenario
    always ends in the branch that calls the attack partially
    successful. *)
Theorem timewarp_outcome (current_time : Z) :
  TimestampManipulationAttack.mtp_protect (range 0 100) current_time 60 [] =
    Ok (map (fun i => current_time + 59 + mtp_offset i) (range 0 100)) /\
  TimestampManipulationAttack.run_simulation current_time =
    Ok {| TimestampManipulationAttack.actual_time := 0;
          TimestampManipulationAttack.expected_time := 60000;
          TimestampManipulationAttack.protected_actual_time := 15;
          TimestampManipulationAttack.partially_successful := true |}.
Proof.
  split.
  - rewrite timewarp_timestamps, map_map. f_equal. apply map_ext. intros i. lia.
  - apply timewarp_run.
Qed.

(** ** Floats: a lower bound through rounding *)

Lemma at_least_mono (n m m' e : Z) : m <= m' -> at_least n m e -> at_least n m' e.
Proof.
  unfold at_least. intros Hm. destruct (0 <=? e) eqn:E; intros H; [|lia].
  apply Z.leb_le in E. pose proof (Z.pow_pos_nonneg 2 e ltac:(lia) E). nia.
Qed.

Lemma at_least_big (n m e : Z) :
  n <= 2 ^ 52 -> 2 ^ 52 <= m -> 0 < e -> at_least n m e.
Proof.
  unfold at_least. intros Hn Hm He.
  destruct (0 <=? e) eqn:E; [|apply Z.leb_gt in E; lia].
  pose proof (Z.pow_pos_nonneg 2 e ltac:(lia) ltac:(lia)). nia.
Qed.

(** The shift keeps the bound. *)
Lemma shr_fexp_at_least (n : Z) (p : positive) (e : Z) (l : location) :
  0 <= n <= 2 ^ 52 ->
  at_least n (Z.pos p) e ->
  0 < n ->
  0 < shr_m (fst (shr_fexp prec emax (Z.pos p) e l)) /\
  at_least n (shr_m (fst (shr_fexp prec emax (Z.pos p) e l)))
             (snd (shr_fexp prec emax (Z.pos p) e l)).
Proof.
  intros Hn Hat Hpos.
  destruct (shr_fexp_cases p e l) as [(Hk & ->) | (Hk & -> & ->)].
  - simpl fst. simpl snd.
    replace (shr_m (shr_record_of_loc (Z.pos p) l)) with (Z.pos p)
      by (destruct l as [|[| |]]; reflexivity).
    split; [lia | exact Hat].
  - set (k := fexp prec emax (Z.pos (digits2_pos p) + e) - e) in *.
    assert (H2k : 0 < 2 ^ k) by (apply Z.pow_pos_nonneg; lia).
    destruct (Z.le_gt_cases (e + k) 0) as [Hle|Hgt].
    + (* the target exponent is not positive: the bound is a multiple
         of the power shifted out *)
      assert (He : e < 0) by lia.
      unfold at_least in Hat. replace (0 <=? e) with false in Hat
        by (symmetry; apply Z.leb_gt; lia).
      assert (Hq : n * 2 ^ (- (e + k)) <= Z.pos p / 2 ^ k).
      { apply Z.div_le_lower_bound; [exact H2k|].
        replace (- e) with (k + - (e + k)) in Hat by lia.
        rewrite Z.pow_add_r in Hat by lia. lia. }
      assert (Hp2 : 0 < 2 ^ (- (e + k))) by (apply Z.pow_pos_nonneg; lia).
      split; [nia|].
      unfold at_least. destruct (0 <=? e + k) eqn:E.
      * apply Z.leb_le in E. assert (e + k = 0) by lia.
        replace (e + k) with 0 in * by lia. simpl in Hq. simpl. lia.
      * exact Hq.
    + (* the target exponent is positive: fifty-three bits are left *)
      assert (Hk53 : k = Z.pos (digits2_pos p) - 53).
      { unfold k, fexp, SpecFloat.emin, prec, emax in *. lia. }
      assert (Hbig : 2 ^ 52 <= Z.pos p / 2 ^ k).
      { apply Z.div_le_lower_bound; [exact H2k|].
        rewrite <- Z.pow_add_r by lia.
        replace (k + 52) with (Z.pos (digits2_pos p) - 1) by lia.
        apply digits2_pos_lower. }
      split; [lia|]. apply at_least_big; [lia | exact Hbig | exact Hgt].
Qed.

Lemma round_nearest_even_ge (m : Z) (l : location) : m <= round_nearest_even m l.
Proof.
  destruct l as [|[| |]]; simpl; try lia. destruct (Z.even m); lia.
Qed.

Lemma at_least_finite (n : Z) (m : positive) (e : Z) :
  at_least n (Z.pos m) e -> float_lt_int (S754_finite false m e) n = false.
Proof.
  unfold at_least, float_lt_int. destruct (0 <=? e); intros H; apply Z.ltb_ge; exact H.
Qed.

(** Rounding a positive number that is at least [n] gives a float that is
    not below [n]. *)
Lemma binary_round_aux_at_least (n : Z) (p : positive) (e : Z) (l : location) :
  0 < n <= 2 ^ 52 ->
  at_least n (Z.pos p) e ->
  float_lt_int (binary_round_aux prec emax false (Z.pos p) e l) n = false.
Proof.
  intros Hn Hat. unfold binary_round_aux.
  destruct (shr_fexp_at_least n p e l ltac:(lia) Hat ltac:(lia)) as (Hpos1 & Hat1).
  destruct (shr_fexp prec emax (Z.pos p) e l) as [mrs' e'] eqn:E1.
  simpl fst in *. simpl snd in *.
  pose proof (round_nearest_even_ge (shr_m mrs') (loc_of_shr_record mrs')) as Hge.
  destruct (round_nearest_even (shr_m mrs') (loc_of_shr_record mrs')) as [|p1|p1];
    try lia.
  apply (at_least_mono n _ (Z.pos p1) e' Hge) in Hat1.
  destruct (shr_fexp_at_least n p1 e' loc_Exact ltac:(lia) Hat1 ltac:(lia))
    as (Hpos2 & Hat2).
  destruct (shr_fexp prec emax (Z.pos p1) e' loc_Exact) as [mrs'' e''] eqn:E2.
  simpl fst in *. simpl snd in *.
  destruct (shr_m mrs'') as [|p2|p2]; try lia.
  destruct (e'' <=? emax - prec); [apply at_least_finite, Hat2 | reflexivity].
Qed.

Lemma pos_iter_xO (m d : positive) : Z.pos (Pos.iter xO m d) = Z.pos m * 2 ^ Z.pos d.
Proof.
  rewrite <- Z.shiftl_mul_pow2 by lia. unfold Z.shiftl.
  apply (Pos.iter_swap_gen _ _ Z.pos xO (Z.mul 2)). intros a. reflexivity.
Qed.

Lemma at_least_shl (n m e d : Z) :
  0 < d -> at_least n m e -> at_least n (m * 2 ^ d) (e - d).
Proof.
  unfold at_least. intros Hd H.
  assert (H2d : 0 < 2 ^ d) by (apply Z.pow_pos_nonneg; lia).
  destruct (0 <=? e) eqn:E; destruct (0 <=? e - d) eqn:E'.
  - apply Z.leb_le in E, E'.
    replace e with (d + (e - d)) in H by lia. rewrite Z.pow_add_r in H by lia. lia.
  - apply Z.leb_le in E. apply Z.leb_gt in E'.
    replace d with (e + - (e - d)) at 2 by lia. rewrite Z.pow_add_r by lia.
    assert (0 < 2 ^ (- (e - d))) by (apply Z.pow_pos_nonneg; lia). nia.
  - apply Z.leb_gt in E. apply Z.leb_le in E'. lia.
  - apply Z.leb_gt in E, E'.
    replace (- (e - d)) with (- e + d) by lia. rewrite Z.pow_add_r by lia. nia.
Qed.

Lemma binary_round_at_least (n : Z) (s : positive) (e : Z) :
  0 < n <= 2 ^ 52 ->
  at_least n (Z.pos s) e ->
  float_lt_int (binary_round prec emax false s e) n = false.
Proof.
  intros Hn Hat. unfold binary_round, shl_align.
  destruct (fexp prec emax (Z.pos (digits2_pos s) + e) - e) as [|d|d] eqn:Ed.
  - apply binary_round_aux_at_least; assumption.
  - apply binary_round_aux_at_least; assumption.
  - apply binary_round_aux_at_least; [exact Hn|].
    rewrite pos_iter_xO.
    replace (fexp prec emax (Z.pos (digits2_pos s) + e)) with (e - Z.pos d) by lia.
    apply at_least_shl; [lia | exact Hat].
Qed.

(** Ten thousand plus anything that is not negative is not below nine
    thousand, after rounding too. *)
Lemma height_plus_nonneg (x : float) :
  nonneg x \/ x = S754_nan ->
  float_lt_int (fadd (float_lit 10000 0) x) 9000 = false.
Proof.
  intros [Hx | ->]; [|reflexivity].
  destruct x as [s|s| |s mx ex]; try destruct s; try contradiction;
    try reflexivity.
  change (float_lit 10000 0) with (S754_finite false 5497558138880000 (-39)).
  unfold fadd, SFadd. cbn [cond_Zopp].
  set (ez := Z.min (-39) ex).
  assert (Hez : ez <= -39) by (unfold ez; lia).
  assert (Ha : 10000 * 2 ^ (- ez)
               <= Z.pos (fst (shl_align 5497558138880000 (-39) ez))).
  { unfold shl_align. destruct (ez - -39) as [|d|d] eqn:Ed; simpl fst.
    - replace ez with (-39) by lia. vm_compute. discriminate.
    - lia.
    - rewrite pos_iter_xO. replace (- ez) with (39 + Z.pos d) by lia.
      rewrite Z.pow_add_r by lia.
      change 5497558138880000 with (10000 * 2 ^ 39). lia. }
  change (Z.pos (fst (shl_align 5497558138880000 (-39) ez)) +
          Z.pos (fst (shl_align mx ex ez)))
    with (Z.pos (fst (shl_align 5497558138880000 (-39) ez) +
                 fst (shl_align mx ex ez))).
  unfold binary_normalize. apply binary_round_at_least; [vm_compute; split; [reflexivity | discriminate]|].
  unfold at_least. replace (0 <=? ez) with false by (symmetry; apply Z.leb_gt; lia).
  assert (0 < 2 ^ (- ez)) by (apply Z.pow_pos_nonneg; lia).
  rewrite Pos2Z.inj_add. lia.
Qed.

(** ** The long-range scenario *)

Lemma fmul_nonneg (x y : float) :
  nonneg x -> nonneg y -> nonneg (fmul x y) \/ fmul x y = S754_nan.
Proof.
  intros Hx Hy.
  destruct x as [sx|sx| |sx mx ex]; try destruct sx; try contradiction;
    destruct y as [sy|sy| |sy my ey]; try destruct sy; try contradiction;
    try (left; exact I); try (right; reflexivity).
  left. unfold fmul, SFmul. simpl xorb.
  apply signed_false_nonneg, binary_round_aux_signed. lia.
Qed.

(** X11: the long-range scenario stops with [ZeroDivisionError] exactly
    when the attacker hashrate is zero (of either sign); for every other
    configuration it completes and ends in the branch that calls the
    attack blocked by MAX_REORG_DEPTH. *)
Theorem long_range_outcome (config : SimulationConfig) :
  (is_zero (attacker_hashrate config) = true ->
   LongRangeAttack.run_simulation config = Raise ZeroDivisionError) /\
  (is_zero (attacker_hashrate config) = false ->
   exists report,
     LongRangeAttack.run_simulation config = Ok report /\
     LongRangeAttack.blocked report = true).
Proof.
  unfold LongRangeAttack.run_simulation. cbv zeta.
  change (float_of_int (10000 - 1000)) with (Ok (float_lit 9000 0)).
  change (float_of_int 10000) with (Ok (float_lit 10000 0)).
  cbn [bind]. unfold truediv.
  split; intros H; rewrite H.
  - reflexivity.
  - cbn [bind]. eexists. split; reflexivity.
Qed.

(** X12: with hashrates that are not negative, the long-range scenario
    never ends its feasibility step in the ATTACK FAILED branch: the
    test sets the 9000 blocks to rewrite against an honest chain of
    10000 blocks and more. *)
Theorem long_range_never_fails (config : SimulationConfig)
    (report : LongRangeAttack.Report) :
  fle f0 (honest_hashrate config) = true ->
  fle f0 (attacker_hashrate config) = true ->
  LongRangeAttack.run_simulation config = Ok report ->
  LongRangeAttack.attack_failed report = false.
Proof.
  intros Hh Ha. unfold LongRangeAttack.run_simulation. cbv zeta.
  change (float_of_int (10000 - 1000)) with (Ok (float_lit 9000 0)).
  change (float_of_int 10000) with (Ok (float_lit 10000 0)).
  cbn [bind]. unfold truediv.
  destruct (is_zero (attacker_hashrate config)) eqn:Ez; [discriminate|].
  cbn [bind]. intros H. injection H as <-.
  cbn [LongRangeAttack.attack_failed].
  change (10000 - 1000) with 9000.
  apply height_plus_nonneg.
  assert (Htime : nonneg (fdiv (float_lit 9000 0) (attacker_hashrate config))).
  { apply fle_f0_nonneg in Ha.
    destruct (attacker_hashrate config) as [s|s| |s m e]; try destruct s;
      try contradiction; try discriminate Ez.
    - exact I.
    - apply fdiv_nonneg. exact I. }
  destruct (fmul_nonneg (honest_hashrate config)
              (fdiv (float_lit 9000 0) (attacker_hashrate config))
              (fle_f0_nonneg _ Hh) Htime) as [Hn | Hn]; [left | right]; exact Hn.
Qed.

Lemma long_range_never_fails_witness :
  exists report,
    fle f0 (honest_hashrate demo_config) = true /\
    fle f0 (attacker_hashrate demo_config) = true /\
    LongRangeAttack.run_simulation demo_config = Ok report /\
    LongRangeAttack.attack_failed report = false.
Proof.
  destruct (LongRangeAttack.run_simulation demo_config) as [report|e] eqn:E.
  - exists report. split; [reflexivity|]. split; [reflexivity|].
    split; [reflexivity|].
    apply (long_range_never_fails demo_config report);
      [reflexivity | reflexivity | exact E].
  - exfalso. vm_compute in E. discriminate E.
Defined.

(** ** What can stop the loop *)

Lemma bind_Raise {A B : Type} (m : result A) (k : A -> result B) (e : exn) :
  bind m k = Raise e -> m = Raise e \/ exists a, m = Ok a /\ k a = Raise e.
Proof.
  destruct m as [a|e']; simpl; intros H.
  - right. exists a. split; [reflexivity | exact H].
  - left. injection H as <-. reflexivity.
Qed.

Lemma mine_block_Raise (self : MiningSimulator) (height : Z) (prev_hash : string)
    (difficulty : Z) (d : Draw) (c : Clock) (e : exn) :
  mine_block self height prev_hash difficulty d c = Raise e ->
  e = ZeroDivisionError \/ e = ValueError \/ e = OverflowError.
Proof.
  unfold mine_block, expovariate. intros H.
  apply bind_Raise in H. destruct H as [H | (t & _ & H)].
  - left. unfold truediv in H. destruct (is_zero _); [|discriminate H].
    injection H as <-. reflexivity.
  - apply bind_Raise in H. destruct H as [H | (u & _ & H)]; [|discriminate H].
    right. unfold sleep in H. cbv zeta in H.
    destruct (is_nan _); [injection H as <-; left; reflexivity|].
    destruct (_ || _); [injection H as <-; right; reflexivity|].
    destruct (_ || _); [injection H as <-; left; reflexivity | discriminate H].
Qed.

Lemma grown_nonempty (chain : list Block) : grown chain -> chain <> [].
Proof.
  destruct 1 as [|chain tip b _ _ _ _]; [discriminate|].
  intros H. apply app_eq_nil in H. destruct H as (_ & H). discriminate H.
Qed.

Lemma round_body_Raise (cfg : SimulationConfig) (n : nat)
    (self : SelfishMiningAttack) (d : Draw) (c : Clock) (e : exn) :
  reachable cfg n self ->
  (choice d < 3)%nat ->
  round_body self d c = Raise e ->
  e = ZeroDivisionError \/ e = ValueError \/ e = OverflowError.
Proof.
  intros Hreach Hchoice H.
  destruct (reachable_config cfg n self Hreach) as (_ & _ & Hminers).
  destruct (reachable_grown cfg n self Hreach) as (Hpub & Hatt).
  apply grown_nonempty, last_item_Ok in Hpub, Hatt.
  destruct Hpub as (ptip & Hptip). destruct Hatt as (atip & Hatip).
  unfold round_body in H. cbv zeta in H.
  destruct (flt (random_value d) (attacker_hashrate (config self))).
  - unfold _attacker_mines_block in H. rewrite Hatip in H. cbn [bind] in H.
    apply bind_Raise in H. destruct H as [H | (b & _ & H)]; [|discriminate H].
    apply mine_block_Raise in H. exact H.
  - rewrite _honest_miner_mines_block_eq, Hminers in H.
    destruct (init_honest_miners cfg (choice d) Hchoice) as (m & Hm & _).
    rewrite Hm, Hptip in H. cbn [bind] in H.
    apply bind_Raise in H. destruct H as [H | (b & _ & H)].
    + apply mine_block_Raise in H. exact H.
    + cbv zeta in H.
      destruct (len (public_chain (broadcast self b)) >=?
                len (attacker_chain (broadcast self b))) eqn:E; [|discriminate H].
      apply Z.geb_le in E. rewrite (release_not_longer _ E) in H. discriminate H.
Qed.

(** X13: when every choice among the honest miners is in range, the only
    exceptions that stop the loop of a run are the three the block
    producer raises for a miner's rate: [ZeroDivisionError] from the
    division by a zero rate, and [ValueError] or [OverflowError] from
    [time.sleep], for a pause that is NaN or negative, or too far from
    zero for a 64-bit count of nanoseconds.  The tips [chain[-1]] always
    exist and the release routine never raises. *)
Theorem loop_stops_only_in_mine_block (cfg : SimulationConfig)
    (rng : Z -> Draw) (clock : Z -> Clock) (e : exn) :
  (forall round, (choice (rng round) < 3)%nat) ->
  simulation_loop (__init__ cfg) rng clock = Raise e ->
  e = ZeroDivisionError \/ e = ValueError \/ e = OverflowError.
Proof.
  intros Hchoice. unfold simulation_loop. cbv zeta.
  generalize (range 1 (total_blocks (config (initialize_genesis (__init__ cfg))) + 1)).
  intros rounds.
  assert (H : forall n self,
             reachable cfg n self ->
             run_rounds rng clock rounds self = Raise e ->
             e = ZeroDivisionError \/ e = ValueError \/ e = OverflowError).
  { induction rounds as [|r rest IH]; intros n self Hreach Hrun; simpl in Hrun.
    - discriminate Hrun.
    - apply bind_Raise in Hrun. destruct Hrun as [Hrun | (s1 & Hstep & Hrun)].
      + apply (round_body_Raise cfg n self (rng r) (clock r) e Hreach (Hchoice r) Hrun).
      + apply (IH (S n) s1); [|exact Hrun].
        apply (reach_round cfg n self s1 (rng r) (clock r) Hreach Hstep). }
  apply (H 0%nat). apply reach_genesis.
Qed.

(** An honest hashrate of [-2 ^ -30]: the first honest miner draws a time
    to mine near minus [1e11] seconds, and the pause overflows. *)
Lemma loop_stops_only_in_mine_block_witness :
  (forall round, (choice (draws_of [] round) < 3)%nat) /\
  simulation_loop (__init__ slow_config) (draws_of []) demo_clock
    = Raise OverflowError /\
  (OverflowError = ZeroDivisionError \/ OverflowError = ValueError \/
   OverflowError = OverflowError).
Proof.
  assert (Hc : forall round, (choice (draws_of [] round) < 3)%nat).
  { intros round. destruct (draws_of_ok [] round) as (_ & _ & H & _). exact H. }
  split; [exact Hc|]. split; [vm_compute; reflexivity|].
  apply (loop_stops_only_in_mine_block slow_config
           (draws_of []) demo_clock OverflowError Hc).
  vm_compute. reflexivity.
Defined.
